(** * sec-fetch: URL resolution, download-link extraction and file download

    A shallow embedding of the conference-paper fetcher (package [main]):
    [getFullUrl], [downloadFile], [createConfDirectory], [getLinks], the three
    revisions of [getDownloadUrl] and the driver loop of [main].

    The program is sequential glue around the Go standard library, the HTML
    parser of golang.org/x/net/html and the tree queries of
    github.com/yhat/scrape.  The pure library functions the program calls
    ([strings], [path], [strconv], [regexp], [scrape]) are written out below
    under the names the program uses.  The parts of the outside world the
    program talks to (the web behind [http.Get], the markup parser, the
    [net/url] parser and resolver) are parameters, collected in the class
    [Platform]; the file system is an explicit state. *)

From Stdlib Require Import ZArith Ascii String List Bool Lia DecimalString.
From stdpp Require Import base tactics option list strings gmap fin_maps.

Local Open Scope Z_scope.
Local Open Scope nat_scope.

(** ** Package [strings] *)

Module strings.

(** [strings.HasPrefix(s, prefix)]. *)
Definition HasPrefix (s prefix : string) : bool := String.prefix prefix s.

(** [strings.Contains(s, substr)]: [substr] occurs at some offset of [s]. *)
Fixpoint Contains (s substr : string) : bool :=
  if String.prefix substr s then true
  else match s with
       | EmptyString => false
       | String _ s' => Contains s' substr
       end.

(** [strings.IndexByte(s, c) >= 0]: the byte [c] occurs in [s]. *)
Fixpoint hasByte (s : string) (c : ascii) : bool :=
  match s with
  | EmptyString => false
  | String d s' => Ascii.eqb d c || hasByte s' c
  end.

(** [strings.HasSuffix(s, suffix)]:
    [len(s) >= len(suffix) && s[len(s)-len(suffix):] == suffix]. *)
Definition HasSuffix (s suffix : string) : bool :=
  (String.length suffix <=? String.length s) &&
  String.eqb
    (String.substring (String.length s - String.length suffix)
                      (String.length suffix) s)
    suffix.

(** [strings.Split(s, sep)] for a one-byte separator, the only use the program
    makes of it ([strings.Split(downloadUrl, "/")]).  The result has one more
    element than [s] has separators; it is never empty. *)
Fixpoint Split (s : string) (sep : ascii) : list string :=
  match s with
  | EmptyString => [EmptyString]
  | String c s' =>
    if Ascii.eqb c sep then EmptyString :: Split s' sep
    else match Split s' sep with
         | [] => [String c EmptyString]
         | h :: t => String c h :: t
         end
  end.

(** [strings.Join(elems, sep)]. *)
Fixpoint Join (elems : list string) (sep : string) : string :=
  match elems with
  | [] => EmptyString
  | [e] => e
  | e :: rest => e +:+ sep +:+ Join rest sep
  end.

(** [strings.Replace(s, old, new, -1)] for a one-byte [old]. *)
Fixpoint ReplaceAll (s : string) (old : ascii) (new : string) : string :=
  match s with
  | EmptyString => EmptyString
  | String c s' =>
    if Ascii.eqb c old then new +:+ ReplaceAll s' old new
    else String c (ReplaceAll s' old new)
  end.

(** The UTF-8 encodings of the code points with the Unicode White_Space
    property, which is what [unicode.IsSpace] tests. *)
Definition spaces : list string :=
  map String.string_of_list_byte
    [ [Byte.x09]; [Byte.x0a]; [Byte.x0b]; [Byte.x0c]; [Byte.x0d]; [Byte.x20];
      [Byte.xc2; Byte.x85]; [Byte.xc2; Byte.xa0];
      [Byte.xe1; Byte.x9a; Byte.x80];
      [Byte.xe2; Byte.x80; Byte.x80]; [Byte.xe2; Byte.x80; Byte.x81];
      [Byte.xe2; Byte.x80; Byte.x82]; [Byte.xe2; Byte.x80; Byte.x83];
      [Byte.xe2; Byte.x80; Byte.x84]; [Byte.xe2; Byte.x80; Byte.x85];
      [Byte.xe2; Byte.x80; Byte.x86]; [Byte.xe2; Byte.x80; Byte.x87];
      [Byte.xe2; Byte.x80; Byte.x88]; [Byte.xe2; Byte.x80; Byte.x89];
      [Byte.xe2; Byte.x80; Byte.x8a];
      [Byte.xe2; Byte.x80; Byte.xa8]; [Byte.xe2; Byte.x80; Byte.xa9];
      [Byte.xe2; Byte.x80; Byte.xaf]; [Byte.xe2; Byte.x81; Byte.x9f];
      [Byte.xe3; Byte.x80; Byte.x80] ].

(** [s] without the first space of [ps] it starts with, if any. *)
Fixpoint cutSpace (ps : list string) (s : string) : option string :=
  match ps with
  | [] => None
  | p :: ps' =>
    if String.prefix p s
    then Some (String.substring (String.length p)
                                (String.length s - String.length p) s)
    else cutSpace ps' s
  end.

Fixpoint trimLeft (fuel : nat) (s : string) : string :=
  match fuel with
  | O => s
  | S fuel' =>
    match cutSpace spaces s with
    | Some s' => trimLeft fuel' s'
    | None => s
    end
  end.

Definition revString (s : string) : string :=
  String.string_of_list_ascii (rev (String.list_ascii_of_string s)).

Fixpoint trimRight (fuel : nat) (r : string) : string :=
  match fuel with
  | O => r
  | S fuel' =>
    match cutSpace (map revString spaces) r with
    | Some r' => trimRight fuel' r'
    | None => r
    end
  end.

(** [strings.TrimSpace(s)]: leading and trailing white space removed.  Each
    removal shortens the string, so [length s] rounds are enough. *)
Definition TrimSpace (s : string) : string :=
  let l := trimLeft (String.length s) s in
  revString (trimRight (String.length l) (revString l)).

End strings.

(** ** Package [regexp]: the one expression the program compiles *)

Module regexp.

Definition isDigit (c : ascii) : bool :=
  let n := nat_of_ascii c in (48 <=? n) && (n <=? 57).

Fixpoint skipDigits (s : string) : string :=
  match s with
  | String c s' => if isDigit c then skipDigits s' else s
  | EmptyString => s
  end.

(** [s] without the prefix [p], when it has it. *)
Definition cutPrefix (p s : string) : option string :=
  if String.prefix p s
  then Some (String.substring (String.length p)
                              (String.length s - String.length p) s)
  else None.

(** [regexp.MustCompile(`^All [\d]+ versions$`).MatchString(s)]: the whole of
    [s] is "All ", one or more decimal digits, " versions". *)
Definition allVersionsRegex_MatchString (s : string) : bool :=
  match cutPrefix "All " s with
  | None => false
  | Some rest =>
    match rest with
    | String c _ =>
      isDigit c && String.eqb (skipDigits rest) " versions"
    | EmptyString => false
    end
  end.

End regexp.


(** ** Package [path] *)

Module path.

Definition dot : string := ".".
Definition dotdot : string := "..".

(** The element loop of [path.Clean].  [out] holds the elements written so
    far, the last one first.  An empty element (a doubled slash) and "." are
    dropped; ".." removes the last element written unless there is none to
    remove, in which case it is kept in a relative path and dropped in a
    rooted one. *)
Fixpoint cleanElems (rooted : bool) (out elems : list string) : list string :=
  match elems with
  | [] => rev out
  | e :: rest =>
    if String.eqb e EmptyString || String.eqb e dot then
      cleanElems rooted out rest
    else if String.eqb e dotdot then
      match out with
      | top :: out' =>
        if String.eqb top dotdot
        then cleanElems rooted (if rooted then out else dotdot :: out) rest
        else cleanElems rooted out' rest
      | [] => cleanElems rooted (if rooted then [] else [dotdot]) rest
      end
    else cleanElems rooted (e :: out) rest
  end.

(** [path.Clean(path)]: the shortest path name equivalent to [path] by
    purely lexical processing; the empty path becomes ".". *)
Definition Clean (p : string) : string :=
  match p with
  | EmptyString => dot
  | String c _ =>
    let rooted := Ascii.eqb c "/" in
    let elems := cleanElems rooted [] (strings.Split p "/") in
    if rooted then String "/" (strings.Join elems "/")
    else match elems with
         | [] => dot
         | _ => strings.Join elems "/"
         end
  end.

(** [path.Join(elem...)]: the elements from the first non-empty one on,
    joined with slashes and cleaned; "" when all are empty. *)
Fixpoint Join (elem : list string) : string :=
  match elem with
  | [] => EmptyString
  | e :: rest =>
    if String.eqb e EmptyString then Join rest
    else Clean (strings.Join elem "/")
  end.

End path.

(** ** Package [strconv] *)

Module strconv.

(** [strconv.Itoa(i)]: the decimal representation of [i], with a leading
    minus sign when negative.  Go's [int] is modelled by [Z]; the program never
    computes with it. *)
Definition Itoa (i : Z) : string :=
  NilZero.string_of_int (Z.to_int i).

End strconv.

(** ** Errors *)

(** The system errors the model of the file system produces. *)
Inductive Errno := ENOENT | EACCES | ENOTDIR | EISDIR.

(** Go's [error] values, as far as the program creates, compares or prints
    them: [FetchError] is the program's own type; the others stand for
    [*fs.PathError], [*url.Error] and the errors of [net/http] and of reading
    a response body. *)
Inductive error :=
| FetchError (Msg : string)
| PathError (Op Path : string) (Err : Errno)
| UrlError (Op URL Err : string)
| NetError (msg : string).

Definition Errno_Error (e : Errno) : string :=
  match e with
  | ENOENT => "no such file or directory"
  | EACCES => "permission denied"
  | ENOTDIR => "not a directory"
  | EISDIR => "is a directory"
  end.

(** [err.Error()]. *)
Definition Error (e : error) : string :=
  match e with
  | FetchError Msg => Msg
  | PathError Op Path Err => Op +:+ " " +:+ Path +:+ ": " +:+ Errno_Error Err
  | UrlError Op URL Err => Op +:+ " " +:+ URL +:+ ": " +:+ Err
  | NetError msg => msg
  end.

Definition Errno_eqb (a b : Errno) : bool :=
  match a, b with
  | ENOENT, ENOENT | EACCES, EACCES | ENOTDIR, ENOTDIR | EISDIR, EISDIR => true
  | _, _ => false
  end.

(** [err == other] on error values. *)
Definition error_eqb (a b : error) : bool :=
  match a, b with
  | FetchError m, FetchError m' => String.eqb m m'
  | PathError o p e, PathError o' p' e' =>
    String.eqb o o' && String.eqb p p' && Errno_eqb e e'
  | UrlError o u e, UrlError o' u' e' =>
    String.eqb o o' && String.eqb u u' && String.eqb e e'
  | NetError m, NetError m' => String.eqb m m'
  | _, _ => false
  end.

Definition MissingDownloadLinkErr : error :=
  FetchError "no pdf download links found on page".
Definition TooManyDownloadLinksErr : error :=
  FetchError "too many pdf download links found on page".

(** What a library call that returns [(value, error)] yields: the value, or
    the error with a nil value. *)
Inductive res (A : Type) :=
| Ok (a : A)
| Err (e : error).
Arguments Ok {A} a.
Arguments Err {A} e.

(** ** The file system *)

Module fsys.

(** What a path names: a regular file with its bytes, or a directory, which
    the process may or may not be allowed to search. *)
Inductive Entry :=
| RegularFile (content : string)
| Directory (searchable : bool).

(** The path of the first elements of a cleaned path; the empty first element
    of a rooted path names the root. *)
Definition keyOf (elems : list string) : string :=
  match strings.Join elems "/" with
  | EmptyString => "/"
  | k => k
  end.

Fixpoint dirsFrom (pre elems : list string) : list string :=
  match elems with
  | [] => []
  | e :: rest =>
    match rest with
    | [] => []
    | _ :: _ => keyOf (pre ++ [e]) :: dirsFrom (pre ++ [e]) rest
    end
  end.

(** The directories a lookup of [name] walks through, outermost first. *)
Definition dirs (name : string) : list string :=
  dirsFrom [] (strings.Split (path.Clean name) "/").

(** The file system maps cleaned paths to entries.  The root and the working
    directory always exist. *)
Definition entry (fs : gmap string Entry) (k : string) : option Entry :=
  if String.eqb k "/" || String.eqb k path.dot then Some (Directory true)
  else fs !! k.

(** Walking through directories: each must exist, be a directory and be
    searchable. *)
Fixpoint walk (fs : gmap string Entry) (ds : list string) : option Errno :=
  match ds with
  | [] => None
  | d :: rest =>
    match entry fs d with
    | None => Some ENOENT
    | Some (RegularFile _) => Some ENOTDIR
    | Some (Directory false) => Some EACCES
    | Some (Directory true) => walk fs rest
    end
  end.

(** The error of [stat(2)] on [name], if any. *)
Definition stat (fs : gmap string Entry) (name : string) : option Errno :=
  if String.eqb name EmptyString then Some ENOENT
  else match walk fs (dirs name) with
       | Some e => Some e
       | None =>
         match entry fs (path.Clean name) with
         | None => Some ENOENT
         | Some _ => None
         end
       end.

(** [open(2)] with [O_RDWR|O_CREATE|O_TRUNC]: the file is created empty, or
    emptied when it exists.  The handle of the open file is its cleaned
    path. *)
Definition create (fs : gmap string Entry) (name : string)
  : gmap string Entry * (string + Errno) :=
  if String.eqb name EmptyString then (fs, inr ENOENT)
  else match walk fs (dirs name) with
       | Some e => (fs, inr e)
       | None =>
         let k := path.Clean name in
         match entry fs k with
         | Some (Directory _) => (fs, inr EISDIR)
         | _ => (<[k := RegularFile EmptyString]> fs, inl k)
         end
       end.

(** Creating the directories [ds], outermost first, where they are missing.
    What was created before a failure stays. *)
Fixpoint mkdirs (fs : gmap string Entry) (ds : list string)
  : gmap string Entry * option Errno :=
  match ds with
  | [] => (fs, None)
  | d :: rest =>
    match entry fs d with
    | None => mkdirs (<[d := Directory true]> fs) rest
    | Some (RegularFile _) => (fs, Some ENOTDIR)
    | Some (Directory true) => mkdirs fs rest
    | Some (Directory false) =>
      match rest with
      | [] => (fs, None)
      | _ :: _ => (fs, Some EACCES)
      end
    end
  end.

Definition mkdirAll (fs : gmap string Entry) (name : string)
  : gmap string Entry * option Errno :=
  if String.eqb name EmptyString then (fs, Some ENOENT)
  else mkdirs fs (dirs name ++ [path.Clean name]).

End fsys.

(** What the process does that can be seen from outside, besides writing
    files. *)
Inductive Event :=
| GET (url : string)          (* a call of http.Get *)
| LOG (line : string)         (* a line given to package log *)
| SLEEP (d : Z).              (* time.Sleep *)

Record World := {
  fs : gmap string fsys.Entry;
  trace : list Event          (* oldest first *)
}.

Definition setFs (f : gmap string fsys.Entry) (w : World) : World :=
  {| fs := f; trace := trace w |}.

Definition emit (e : Event) (w : World) : World :=
  {| fs := fs w; trace := trace w ++ [e] |}.

(** How a computation ends: it returns; the process exits ([log.Fatal] calls
    [os.Exit(1)]); or the recursion budget of the model ran out. *)
Inductive Run (A : Type) :=
| Returned (a : A) (w : World)
| Exited (w : World)
| OutOfFuel.
Arguments Returned {A} a w.
Arguments Exited {A} w.
Arguments OutOfFuel {A}.

Definition M (A : Type) : Type := World -> Run A.

Definition ret {A} (a : A) : M A := fun w => Returned a w.

Definition bind {A B} (m : M A) (k : A -> M B) : M B :=
  fun w =>
    match m w with
    | Returned a w' => k a w'
    | Exited w' => Exited w'
    | OutOfFuel => OutOfFuel
    end.

(** [M] with stdpp's monad notations: [x ← m; k] and [m;; k]. *)
#[global] Instance M_ret : MRet M := @ret.
#[global] Instance M_bind : MBind M := fun A B k m => bind m k.

(** The newline byte. *)
Definition nl : string := String (ascii_of_nat 10) EmptyString.

Module log.

(** [log.Printf], [log.Print]: the formatted line. *)
Definition Print (line : string) : M unit :=
  fun w => Returned tt (emit (LOG line) w).

(** [log.Println(v)]: the operand and a newline. *)
Definition Println (v : string) : M unit := Print (v +:+ nl).

(** [log.Fatal], [log.Fatalf]: [Print] followed by [os.Exit(1)]. *)
Definition Fatal {A} (line : string) : M A :=
  fun w => Exited (emit (LOG line) w).

End log.

Module time.

(** [time.Sleep(d)], [d] in nanoseconds. *)
Definition Sleep (d : Z) : M unit :=
  fun w => Returned tt (emit (SLEEP d) w).

Definition Millisecond : Z := 1000000.
Definition Second : Z := 1000000000.

End time.

(** A stream of bytes read to its end: the bytes it delivers, and the error
    the reads end with when it is not the end of the stream. *)
Record Reader := {
  data : string;
  failure : option error
}.

Module os.

(** [os.Stat(name)]; the program only looks at the error. *)
Definition Stat (name : string) : M (option error) :=
  fun w =>
    Returned (match fsys.stat (fs w) name with
              | None => None
              | Some e => Some (PathError "stat" name e)
              end) w.

(** [os.IsNotExist(err)]. *)
Definition IsNotExist (err : option error) : bool :=
  match err with
  | Some (PathError _ _ ENOENT) => true
  | _ => false
  end.

(** [os.Create(name)]: the handle of the file, or the error. *)
Definition Create (name : string) : M (res string) :=
  fun w =>
    match fsys.create (fs w) name with
    | (f, inl out) => Returned (Ok out) (setFs f w)
    | (f, inr e) => Returned (Err (PathError "open" name e)) (setFs f w)
    end.

(** [os.MkdirAll(path, perm)]. *)
Definition MkdirAll (name : string) : M (option error) :=
  fun w =>
    match fsys.mkdirAll (fs w) name with
    | (f, None) => Returned None (setFs f w)
    | (f, Some e) => Returned (Some (PathError "mkdir" name e)) (setFs f w)
    end.

End os.

Module io.

(** [io.Copy(out, src)]: every byte [src] delivers is written to the open
    file [out]; the error is that of the reads.  The program ignores the byte
    count. *)
Definition Copy (out : string) (src : Reader) : M (option error) :=
  fun w =>
    Returned (failure src)
             (setFs (<[out := fsys.RegularFile (data src)]> (fs w)) w).

End io.

(** ** Package [html] (golang.org/x/net/html) and its atoms *)

Module atom.

(** [atom.Atom]: the code of a known tag name; [Zero] is the code of a node
    that is not a known element. *)
Inductive Atom := Zero | A | B | Body | Div | H3 | Head | Html | Li | P | Span.

Definition eqb (x y : Atom) : bool :=
  match x, y with
  | Zero, Zero | A, A | B, B | Body, Body | Div, Div | H3, H3
  | Head, Head | Html, Html | Li, Li | P, P | Span, Span => true
  | _, _ => false
  end.

End atom.

Module html.

Inductive NodeType :=
| ErrorNode | TextNode | DocumentNode | ElementNode | CommentNode | DoctypeNode.

Record Attribute := { Key : string; Val : string }.

(** A node with the subtrees of its children, first child first. *)
#[warnings="-register-all"]
Inductive Node :=
| mkNode (type : NodeType) (dataAtom : atom.Atom) (data : string)
         (attr : list Attribute) (children : list Node).

Definition Type_ (n : Node) : NodeType := let 'mkNode t _ _ _ _ := n in t.
Definition DataAtom (n : Node) : atom.Atom := let 'mkNode _ a _ _ _ := n in a.
Definition Data (n : Node) : string := let 'mkNode _ _ d _ _ := n in d.
Definition Attr (n : Node) : list Attribute := let 'mkNode _ _ _ l _ := n in l.
Definition Children (n : Node) : list Node := let 'mkNode _ _ _ _ c := n in c.

(** A [*html.Node]: a node in its document, with the chain of its ancestors,
    parent first.  The chain of the document root is empty. *)
Record Ptr := { node : Node; above : list Node }.

(** [n.Parent], [None] for nil. *)
Definition Parent (n : Ptr) : option Ptr :=
  match above n with
  | [] => None
  | p :: up => Some {| node := p; above := up |}
  end.

(** The markup parser proper: from the bytes of a document to its tree. *)
Class Parser := { parseBytes : string -> res Node }.

(** [html.Parse(r)]: the error of reading [r], or what the parser makes of
    the bytes read. *)
Definition Parse `{Parser} (r : Reader) : res Ptr :=
  match failure r with
  | Some e => Err e
  | None =>
    match parseBytes (data r) with
    | Ok root => Ok {| node := root; above := [] |}
    | Err e => Err e
    end
  end.

End html.

(** ** Package [scrape] (github.com/yhat/scrape) *)

Module scrape.

(** [scrape.Matcher]: [func(node *html.Node) bool]. *)
Definition Matcher : Type := html.Ptr -> bool.

(** [findAllInternal(node, matcher, searchNested)]: the matching nodes in
    document order; below a matching node the search goes on only when
    [searchNested]. *)
Fixpoint findAllInternal (matcher : Matcher) (searchNested : bool)
         (up : list html.Node) (n : html.Node) {struct n} : list html.Ptr :=
  let here := {| html.node := n; html.above := up |} in
  let below :=
    (fix each (cs : list html.Node) : list html.Ptr :=
       match cs with
       | [] => []
       | c :: cs' =>
         findAllInternal matcher searchNested (n :: up) c ++ each cs'
       end) in
  match n with
  | html.mkNode _ _ _ _ children =>
    if matcher here then
      if searchNested then here :: below children else [here]
    else below children
  end.

(** [scrape.FindAll(node, matcher)]: a matching node's own subtree is not
    searched. *)
Definition FindAll (n : html.Ptr) (matcher : Matcher) : list html.Ptr :=
  findAllInternal matcher false (html.above n) (html.node n).

(** [scrape.Find(node, matcher)]: the first matching node, depth first. *)
Fixpoint find (matcher : Matcher) (up : list html.Node) (n : html.Node)
         {struct n} : option html.Ptr :=
  let here := {| html.node := n; html.above := up |} in
  match n with
  | html.mkNode _ _ _ _ children =>
    if matcher here then Some here
    else
      (fix each (cs : list html.Node) : option html.Ptr :=
         match cs with
         | [] => None
         | c :: cs' =>
           match find matcher (n :: up) c with
           | Some found => Some found
           | None => each cs'
           end
         end) children
  end.

Definition Find (n : html.Ptr) (matcher : Matcher) : option html.Ptr :=
  find matcher (html.above n) (html.node n).

Fixpoint attrVal (l : list html.Attribute) (key : string) : string :=
  match l with
  | [] => EmptyString
  | a :: rest =>
    if String.eqb (html.Key a) key then html.Val a else attrVal rest key
  end.

(** [scrape.Attr(node, key)]: the value of the first attribute named [key],
    "" when there is none. *)
Definition Attr (n : html.Ptr) (key : string) : string :=
  attrVal (html.Attr (html.node n)) key.

Definition isTextNode : Matcher :=
  fun n =>
    match html.Type_ (html.node n) with
    | html.TextNode => true
    | _ => false
    end.

(** [scrape.Text(node)]: the text nodes below [node], each trimmed, the empty
    ones dropped, joined by single spaces. *)
Definition Text (n : html.Ptr) : string :=
  let parts := map (fun t => html.Data (html.node t)) (FindAll n isTextNode) in
  let trimmed := map strings.TrimSpace parts in
  strings.Join
    (filter (fun s => negb (String.eqb s EmptyString)) trimmed) " ".

End scrape.

(** ** Packages [net/url] and [net/http]: the parameters *)

Module url.

(** [url.URL], the fields of the parsed form. *)
Record URL := {
  Scheme : string;
  Opaque : string;
  User : option string;
  Host : string;
  Path : string;
  ForceQuery : bool;
  RawQuery : string;
  Fragment : string
}.

(** The three operations of [net/url] the program uses. *)
Class Lib := {
  Parse : string -> res URL;                  (* url.Parse(rawURL) *)
  ResolveReference : URL -> URL -> URL;       (* u.ResolveReference(ref) *)
  URL_String : URL -> string                  (* u.String() *)
}.

(** [u.Parse(ref)]: [ref] is parsed and then resolved against [u]. *)
Definition URL_Parse `{Lib} (u : URL) (ref : string) : res URL :=
  match Parse ref with
  | Err e => Err e
  | Ok refURL => Ok (ResolveReference u refURL)
  end.

End url.

Module http.

(** [http.Response], of which the program reads the body only. *)
Record Response := { Body : Reader }.

(** The web: what a GET of a URL is answered with, or the error of the
    request. *)
Class Web := { serve : string -> res Response }.

(** [http.Get(url)]. *)
Definition Get `{Web} (url : string) : M (res Response) :=
  fun w => Returned (serve url) (emit (GET url) w).

End http.

(** Everything outside the program that a run depends on, the file system
    apart. *)
Class Platform := {
  platform_url :: url.Lib;
  platform_web :: http.Web;
  platform_html :: html.Parser
}.

(** * The program *)

Record Conference := {
  Name : string;
  URL : string;
  Year : Z
}.

(** [(c *Conference) String()]: [fmt.Sprintf("%s %d", c.Name, c.Year)]. *)
Definition Conference_String (c : Conference) : string :=
  Name c +:+ " " +:+ strconv.Itoa (Year c).

(** The global [config], filled in before the loop of [main] runs. *)
Record Config := {
  fetchTimeout : Z;
  conferencesFile : string;
  outputDirectory : string;
  conferences : list Conference
}.

(** The functions that are the same in the three revisions of the program
    (src/main.go, src/unnamed/part_000, src/unnamed/part_001). *)
Section Common.

Context `{Platform}.

(** [createConfDirectory(outputDirectory, conf)] (main.go, part_000). *)
Definition createConfDirectory (outputDirectory : string) (conf : Conference)
  : M (string * option error) :=
  let confDirectory :=
    path.Join [outputDirectory; Name conf; strconv.Itoa (Year conf)] in
  err ← os.Stat confDirectory;
  if os.IsNotExist err then
    err ← os.MkdirAll confDirectory;
    match err with
    | Some err => ret (EmptyString, Some err)
    | None => ret (confDirectory, None)
    end
  else ret (confDirectory, None).

(** [getFullUrl(baseUrl, linkUrl)]. *)
Definition getFullUrl (baseUrl linkUrl : string) : string * option error :=
  match url.Parse linkUrl with
  | Err err => (EmptyString, Some err)
  | Ok link =>
    if String.eqb (url.Host link) EmptyString
       || String.eqb (url.Scheme link) EmptyString then
      match url.Parse baseUrl with
      | Err err => (EmptyString, Some err)
      | Ok base =>
        match url.URL_Parse base linkUrl with
        | Err err => (EmptyString, Some err)
        | Ok full => (url.URL_String full, None)
        end
      end
    else (linkUrl, None)
  end.

(** [downloadFile(url, filepath)].  The deferred [Close] calls have no effect
    in the model. *)
Definition downloadFile (url filepath : string) : M (option error) :=
  err ← os.Stat filepath;
  if negb (os.IsNotExist err) then
    log.Print ("skipping download, file already exists: "
               +:+ filepath +:+ ", " +:+ nl);;
    ret None
  else
    (* Create the file *)
    out ← os.Create filepath;
    match out with
    | Err err => ret (Some err)
    | Ok out =>
      (* Get the data *)
      resp ← http.Get url;
      match resp with
      | Err err => ret (Some err)
      | Ok resp =>
        (* Write the body to file *)
        err ← io.Copy out (http.Body resp);
        match err with
        | Some err => ret (Some err)
        | None => ret None
        end
      end
    end.

(** The loop of [getLinks] over the matched nodes: a link that does not
    resolve ends the process. *)
Fixpoint resolveAll (pageUrl : string) (pageNodes : list html.Ptr)
         (pages : list string) : M (list string) :=
  match pageNodes with
  | [] => ret pages
  | page :: rest =>
    match getFullUrl pageUrl (scrape.Attr page "href") with
    | (_, Some err) => log.Fatal (Error err)
    | (url, None) => resolveAll pageUrl rest (pages ++ [url])
    end
  end.

(** [getLinks(pageUrl, matcher)] (main.go, part_000). *)
Definition getLinks (pageUrl : string) (matcher : scrape.Matcher)
  : M (list string * option error) :=
  response ← http.Get pageUrl;
  match response with
  | Err err => ret ([], Some err)
  | Ok response =>
    match html.Parse (http.Body response) with
    | Err err => ret ([], Some err)
    | Ok root =>
      (* grab all paper links *)
      let pageNodes := scrape.FindAll root matcher in
      pages ← resolveAll pageUrl pageNodes [];
      ret (pages, None)
    end
  end.

(** The statements every download loop of [main] ends with, given the
    resolved URL and the directory of the conference:
    [splitUrl := strings.Split(downloadUrl, "/")],
    [filepath := path.Join(confDirectory, splitUrl[len(splitUrl)-1])],
    [downloadFile(downloadUrl, filepath)] (its error is dropped),
    [time.Sleep(d)]. *)
Definition fileName (downloadUrl : string) : string :=
  List.last (strings.Split downloadUrl "/") EmptyString.

Definition saveTo (d : Z) (confDirectory downloadUrl : string) : M unit :=
  let filepath := path.Join [confDirectory; fileName downloadUrl] in
  downloadFile downloadUrl filepath;;
  time.Sleep d.

End Common.

(** [init()], from the end of [flag.Parse()] on: the output directory is made,
    with its parents, when [os.Stat] reports it missing; a failure ends the
    process.  The three revisions have the same statements here. *)
Definition init (config : Config) : M unit :=
  (* create output directory *)
  err ← os.Stat (outputDirectory config);
  if os.IsNotExist err then
    err ← os.MkdirAll (outputDirectory config);
    match err with
    | Some err => log.Fatal (Error err)
    | None => mret tt
    end
  else mret tt.

(** [for _, x := range l { body }]. *)
Fixpoint forEach {A} (l : list A) (body : A -> M unit) : M unit :=
  match l with
  | [] => mret tt
  | x :: rest => body x;; forEach rest body
  end.

(** [n.DataAtom == a]. *)
Definition hasAtom (n : html.Ptr) (a : atom.Atom) : bool :=
  atom.eqb (html.DataAtom (html.node n)) a.

(** The matchers [main] defines. *)
Module matchers.

(** An anchor whose grandparent's class contains "node-paper" (USENIX
    listing page). *)
Definition usenixPage : scrape.Matcher :=
  fun n =>
    (* must check for nil values *)
    if hasAtom n atom.A then
      match html.Parent n with
      | Some parent =>
        match html.Parent parent with
        | Some grand =>
          strings.Contains (scrape.Attr grand "class") "node-paper"
        | None => false
        end
      | None => false
      end
    else false.

(** An anchor whose parent has class "file" (USENIX paper page). *)
Definition usenixFile : scrape.Matcher :=
  fun n =>
    (* must check for nil values *)
    if hasAtom n atom.A then
      match html.Parent n with
      | Some parent => String.eqb (scrape.Attr parent "class") "file"
      | None => false
      end
    else false.

(** An anchor with the given text (NDSS "Paper", CCS "[PDF]"). *)
Definition anchorText (text : string) : scrape.Matcher :=
  fun n =>
    if hasAtom n atom.A then String.eqb (scrape.Text n) text else false.

(** An anchor directly under an [h3] (NDSS listing pages). *)
Definition underH3 : scrape.Matcher :=
  fun n =>
    if hasAtom n atom.A then
      match html.Parent n with
      | Some parent => hasAtom parent atom.H3
      | None => false
      end
    else false.

(** A [b] whose parent has class "list-group-item" (Oakland listing pages,
    2015 to 2018). *)
Definition oaklandBold : scrape.Matcher :=
  fun n =>
    if hasAtom n atom.B then
      match html.Parent n with
      | Some parent =>
        String.eqb (scrape.Attr parent "class") "list-group-item"
      | None => false
      end
    else false.

(** An anchor whose grandparent has class "list-group-item" (Oakland listing
    pages up to 2014). *)
Definition oaklandAnchor : scrape.Matcher :=
  fun n =>
    if hasAtom n atom.A then
      match html.Parent n with
      | Some parent =>
        match html.Parent parent with
        | Some grand =>
          String.eqb (scrape.Attr grand "class") "list-group-item"
        | None => false
        end
      | None => false
      end
    else false.

(** An anchor to a ".pdf" under a parent of class "gs_or_ggsm" (the search
    results of the aggregator). *)
Definition scholarPdf : scrape.Matcher :=
  fun n =>
    (* must check for nil values *)
    if hasAtom n atom.A then
      match html.Parent n with
      | Some parent =>
        let href := scrape.Attr n "href" in
        strings.HasSuffix href ".pdf"
        && String.eqb (scrape.Attr parent "class") "gs_or_ggsm"
      | None => false
      end
    else false.

End matchers.

(** The parts of [main] that main.go and part_000 share word for word; they
    differ in the [getDownloadUrl] that is called. *)
Section Driver.

Context `{Platform}.
Variable getDownloadUrl : string -> scrape.Matcher -> M (string * option error).
Variable config : Config.

(** The body of the loops [for _, link := range downloadLinks]. *)
Definition saveLink (confDirectory link : string) : M unit :=
  log.Println link;;
  saveTo (fetchTimeout config) confDirectory link.

(** The body of the loops [for _, p := range pages]: a page without a link
    is skipped, one with several links is downloaded from the first, any
    other error ends the process. *)
Definition savePaper (confDirectory : string) (urlMatcher : scrape.Matcher)
           (p : string) : M unit :=
  r ← getDownloadUrl p urlMatcher;
  let downloadUrl := r.1 in
  match r.2 with
  | Some err =>
    if error_eqb err MissingDownloadLinkErr then mret tt
    else if error_eqb err TooManyDownloadLinksErr then
      log.Println (Error err);;
      saveLink confDirectory downloadUrl
    else log.Fatal (Error err)
  | None => saveLink confDirectory downloadUrl
  end.

(** [confDirectory, err := createConfDirectory(...)]; a failure is fatal. *)
Definition confDirectoryOrFatal (conf : Conference) : M string :=
  r ← createConfDirectory (outputDirectory config) conf;
  match r.2 with
  | Some err => log.Fatal (Error err)
  | None => mret r.1
  end.

(** [pages, err := getLinks(conf.URL, matcher)]; a failure is fatal. *)
Definition linksOrFatal (conf : Conference) (matcher : scrape.Matcher)
  : M (list string) :=
  r ← getLinks (URL conf) matcher;
  match r.2 with
  | Some err => log.Fatal (Error err)
  | None => mret r.1
  end.

Definition noParser (conf : Conference) : M unit :=
  log.Print ("no parser found for " +:+ Conference_String conf).

(** [case "USENIX":]. *)
Definition usenix (conf : Conference) : M unit :=
  confDirectory ← confDirectoryOrFatal conf;
  pages ← linksOrFatal conf matchers.usenixPage;
  forEach pages (savePaper confDirectory matchers.usenixFile).

(** [case "NDSS":]. *)
Definition ndss (conf : Conference) : M unit :=
  confDirectory ← confDirectoryOrFatal conf;
  if (Year conf =? 2018)%Z then
    downloadLinks ← linksOrFatal conf (matchers.anchorText "Paper");
    forEach downloadLinks (saveLink confDirectory)
  else if (Year conf =? 2017)%Z || (Year conf =? 2015)%Z
          || (Year conf =? 2014)%Z then
    pages ← linksOrFatal conf matchers.underH3;
    forEach pages (savePaper confDirectory (matchers.anchorText "Paper"))
  else if (Year conf =? 2016)%Z then
    downloadLinks ← linksOrFatal conf matchers.underH3;
    forEach downloadLinks (saveLink confDirectory)
  else noParser conf.

End Driver.

(** ** src/main.go *)

Module Main.
Section Main.

Context `{Platform}.

(** [getDownloadUrl(pageUrl, matcher)]. *)
Definition getDownloadUrl (pageUrl : string) (matcher : scrape.Matcher)
  : M (string * option error) :=
  response ← http.Get pageUrl;
  match response with
  | Err err => mret (EmptyString, Some err)
  | Ok response =>
    match html.Parse (http.Body response) with
    | Err err => mret (EmptyString, Some err)
    | Ok root =>
      (* grab all paper links *)
      let pageNodes := scrape.FindAll root matcher in
      match pageNodes with
      | [] (* len(pageNodes) < 1 *) =>
        mret (EmptyString, Some MissingDownloadLinkErr)
      | first :: others =>
        match getFullUrl pageUrl (scrape.Attr first "href") with
        | (_, Some err) => mret (EmptyString, Some err)
        | (fileUrl, None) =>
          match others with
          | _ :: _ (* len(pageNodes) > 1 *) =>
            mret (fileUrl, Some TooManyDownloadLinksErr)
          | [] => mret (fileUrl, None)
          end
        end
      end
    end
  end.

Variable config : Config.

(** The body of [for _, conf := range config.conferences]. *)
Definition conference (conf : Conference) : M unit :=
  if String.eqb (Name conf) "USENIX" then usenix getDownloadUrl config conf
  else if String.eqb (Name conf) "NDSS" then ndss getDownloadUrl config conf
  else noParser conf.

(** [main()], from the loop over the loaded configuration on. *)
Definition main : M unit := forEach (conferences config) conference.

End Main.
End Main.

(** ** src/unnamed/part_000: the revision with the gated domain *)

Module Part000.
Section Part000.

Context `{Platform}.

Definition gate : string := "www.ieee-security.org".

(** [allVersionsMatcher]: an anchor whose text is "All <digits> versions". *)
Definition allVersionsMatcher : scrape.Matcher :=
  fun n =>
    if hasAtom n atom.A
    then regexp.allVersionsRegex_MatchString (scrape.Text n)
    else false.

(** [urlMatcher] of [getDownloadUrl]: an anchor to a ".pdf" under a parent of
    class "gs_or_ggsm" whose [href] does not contain the gated domain. *)
Definition urlMatcher : scrape.Matcher :=
  fun n =>
    (* must check for nil values *)
    if hasAtom n atom.A then
      match html.Parent n with
      | Some parent =>
        let href := scrape.Attr n "href" in
        strings.HasSuffix href ".pdf"
        && String.eqb (scrape.Attr parent "class") "gs_or_ggsm"
        && negb (strings.Contains href gate)
      | None => false
      end
    else false.

(** [getDownloadUrl(pageUrl, matcher)].  The function calls itself; [fuel]
    bounds the number of nested calls. *)
Fixpoint getDownloadUrl (fuel : nat) (pageUrl : string)
         (matcher : scrape.Matcher) : M (string * option error) :=
  match fuel with
  | O => fun _ => OutOfFuel
  | S fuel =>
    response ← http.Get pageUrl;
    match response with
    | Err err => mret (EmptyString, Some err)
    | Ok response =>
      match html.Parse (http.Body response) with
      | Err err => mret (EmptyString, Some err)
      | Ok root =>
        (* grab all paper links *)
        let pageNodes := scrape.FindAll root matcher in
        match pageNodes with
        | [] (* len(pageNodes) < 1 *) =>
          mret (EmptyString, Some MissingDownloadLinkErr)
        | first :: others =>
          match getFullUrl pageUrl (scrape.Attr first "href") with
          | (_, Some err) => mret (EmptyString, Some err)
          | (fileUrl, None) =>
            match others with
            | _ :: _ (* len(pageNodes) > 1 *) =>
              mret (fileUrl, Some TooManyDownloadLinksErr)
            | [] =>
              if strings.Contains fileUrl gate then
                match scrape.Find root allVersionsMatcher with
                | None =>
                  log.Fatal ("no version link found for: " +:+ fileUrl)
                | Some versionLink =>
                  match getFullUrl pageUrl
                                   (scrape.Attr versionLink "href") with
                  | (_, Some err) => mret (EmptyString, Some err)
                  | (versionUrl, None) =>
                    getDownloadUrl fuel versionUrl urlMatcher
                  end
                end
              else mret (fileUrl, None)
            end
          end
        end
      end
    end
  end.

(** [getPaperTitles(pageUrl, matcher)]. *)
Definition getPaperTitles (pageUrl : string) (matcher : scrape.Matcher)
  : M (list string * option error) :=
  response ← http.Get pageUrl;
  match response with
  | Err err => mret ([], Some err)
  | Ok response =>
    match html.Parse (http.Body response) with
    | Err err => mret ([], Some err)
    | Ok root =>
      (* grab all paper titles *)
      let titleNodes := scrape.FindAll root matcher in
      mret (map scrape.Text titleNodes, None)
    end
  end.

Variable fuel : nat.
Variable config : Config.

(** The body of the loops [for _, title := range titles] of
    [case "Oakland":].  [logMissing] tells the two loops apart: the first one
    logs a missing link before going on. *)
Definition saveTitle (logMissing : bool) (confDirectory title : string)
  : M unit :=
  (* Generate google scholar search URL *)
  let gScholarSearchTemplate := "https://scholar.google.com/scholar?q=" in
  let queryString := strings.ReplaceAll title " " "+" in
  match url.Parse (gScholarSearchTemplate +:+ queryString) with
  | Err err => log.Fatal (Error err)
  | Ok gScholarUrl =>
    r ← getDownloadUrl fuel (url.URL_String gScholarUrl) matchers.scholarPdf;
    let downloadUrl := r.1 in
    let rest : M unit :=
      log.Print (title +:+ ": " +:+ downloadUrl);;
      let filepath := path.Join [confDirectory; fileName downloadUrl] in
      (if strings.Contains downloadUrl gate then
         log.Println "skipping download, since www.ieee-security.org checks JS for download...annoying"
       else
         downloadFile downloadUrl filepath;; mret tt);;
      time.Sleep (fetchTimeout config) in
    match r.2 with
    | Some err =>
      if error_eqb err MissingDownloadLinkErr then
        if logMissing
        then log.Print ("missing download link for: "
                        +:+ url.URL_String gScholarUrl +:+ nl)
        else mret tt
      else if error_eqb err TooManyDownloadLinksErr then
        log.Println (Error err);; rest
      else log.Fatal (Error err)
    | None => rest
    end
  end.

(** [titles, err := getPaperTitles(conf.URL, matcher)]; a failure is fatal. *)
Definition titlesOrFatal (conf : Conference) (matcher : scrape.Matcher)
  : M (list string) :=
  r ← getPaperTitles (URL conf) matcher;
  match r.2 with
  | Some err => log.Fatal (Error err)
  | None => mret r.1
  end.

(** [case "Oakland":]. *)
Definition oakland (conf : Conference) : M unit :=
  confDirectory ← confDirectoryOrFatal config conf;
  if (Year conf <=? 2018)%Z && (2015 <=? Year conf)%Z then
    titles ← titlesOrFatal conf matchers.oaklandBold;
    forEach titles (saveTitle true confDirectory)
  else if (Year conf <=? 2014)%Z then
    titles ← titlesOrFatal conf matchers.oaklandAnchor;
    forEach titles (saveTitle false confDirectory)
  else noParser conf.

(** [case "CCS":]. *)
Definition ccs (conf : Conference) : M unit :=
  confDirectory ← confDirectoryOrFatal config conf;
  if (Year conf =? 2017)%Z then
    downloadLinks ← linksOrFatal conf (matchers.anchorText "[PDF]");
    forEach downloadLinks (saveLink config confDirectory)
  else noParser conf.

(** The body of [for _, conf := range config.conferences]. *)
Definition conference (conf : Conference) : M unit :=
  if String.eqb (Name conf) "USENIX" then
    usenix (getDownloadUrl fuel) config conf
  else if String.eqb (Name conf) "NDSS" then
    ndss (getDownloadUrl fuel) config conf
  else if String.eqb (Name conf) "Oakland" then oakland conf
  else if String.eqb (Name conf) "CCS" then ccs conf
  else noParser conf.

(** [main()], from the loop over the loaded configuration on. *)
Definition main : M unit := forEach (conferences config) conference.

End Part000.
End Part000.

(** ** src/unnamed/part_001: the first revision *)

Module Part001.
Section Part001.

Context `{Platform}.

(** [getDownloadUrl(pageUrl)]: the matcher is fixed. *)
Definition getDownloadUrl (pageUrl : string) : M (string * option error) :=
  response ← http.Get pageUrl;
  match response with
  | Err err => mret (EmptyString, Some err)
  | Ok response =>
    match html.Parse (http.Body response) with
    | Err err => mret (EmptyString, Some err)
    | Ok root =>
      (* define a matcher *)
      let matcher := matchers.usenixFile in
      (* grab all paper links *)
      let pageNodes := scrape.FindAll root matcher in
      match pageNodes with
      | [] (* len(pageNodes) < 1 *) =>
        mret (EmptyString, Some MissingDownloadLinkErr)
      | first :: others =>
        match getFullUrl pageUrl (scrape.Attr first "href") with
        | (_, Some err) => mret (EmptyString, Some err)
        | (fileUrl, None) =>
          match others with
          | _ :: _ (* len(pageNodes) > 1 *) =>
            mret (fileUrl, Some TooManyDownloadLinksErr)
          | [] => mret (fileUrl, None)
          end
        end
      end
    end
  end.

Variable config : Config.

(** [case "USENIX":] of this revision: the listing is fetched and the
    directory created in line, and the pause is half a second. *)
Definition usenix (conf : Conference) : M unit :=
  response ← http.Get (URL conf);
  match response with
  | Err err => log.Fatal (Error err)
  | Ok response =>
    match html.Parse (http.Body response) with
    | Err err => log.Fatal (Error err)
    | Ok root =>
      (* grab all paper links *)
      let pageNodes := scrape.FindAll root matchers.usenixPage in
      pages ← resolveAll (URL conf) pageNodes [];
      (* create conference directory *)
      let confDirectory :=
        path.Join [outputDirectory config; Name conf;
                   strconv.Itoa (Year conf)] in
      err ← os.Stat confDirectory;
      (if os.IsNotExist err then
         err ← os.MkdirAll confDirectory;
         match err with
         | Some err => log.Fatal (Error err)
         | None => mret tt
         end
       else mret tt);;
      forEach pages
        (fun p =>
           r ← getDownloadUrl p;
           let downloadUrl := r.1 in
           let rest : M unit :=
             log.Println downloadUrl;;
             saveTo (500 * time.Millisecond) confDirectory downloadUrl in
           match r.2 with
           | Some err =>
             if error_eqb err MissingDownloadLinkErr then mret tt
             else if error_eqb err TooManyDownloadLinksErr then
               log.Println (Error err);; rest
             else log.Fatal (Error err)
           | None => rest
           end)
    end
  end.

Definition conference (conf : Conference) : M unit :=
  if String.eqb (Name conf) "USENIX" then usenix conf
  else noParser conf.

(** [main()], from the loop over the loaded configuration on. *)
Definition main : M unit := forEach (conferences config) conference.

End Part001.
End Part001.

(** * A model of [net/url]

    The theorems below hold for every implementation of [url.Lib].  The
    examples need one.  This one follows the parser, the resolver and the
    printer of Go's [net/url] on URLs that need no percent-decoding or
    -encoding: user information, host and path are kept as written. *)

Module neturl.

Definition isLetter (c : ascii) : bool :=
  let n := nat_of_ascii c in
  ((97 <=? n) && (n <=? 122)) || ((65 <=? n) && (n <=? 90)).

Definition toLower (c : ascii) : ascii :=
  let n := nat_of_ascii c in
  if (65 <=? n) && (n <=? 90) then ascii_of_nat (n + 32) else c.

Fixpoint ToLower (s : string) : string :=
  match s with
  | EmptyString => EmptyString
  | String c s' => String (toLower c) (ToLower s')
  end.

(** [strings.Cut(s, sep)] for a one-byte [sep]: the text before the first
    [sep], and the text after it when there is one. *)
Fixpoint Cut (s : string) (sep : ascii) : string * option string :=
  match s with
  | EmptyString => (EmptyString, None)
  | String c s' =>
    if Ascii.eqb c sep then (EmptyString, Some s')
    else let '(before, after) := Cut s' sep in (String c before, after)
  end.

(** [stringContainsCTLByte]. *)
Fixpoint containsCTLByte (s : string) : bool :=
  match s with
  | EmptyString => false
  | String c s' =>
    let n := nat_of_ascii c in
    (n <? 32) || (n =? 127) || containsCTLByte s'
  end.

(** [getScheme(rawURL)]: the scheme and the text after its colon, or no
    scheme and the whole text. *)
Fixpoint schemeLoop (i : nat) (seen rest rawURL : string)
  : res (string * string) :=
  match rest with
  | EmptyString => Ok (EmptyString, rawURL)
  | String c rest' =>
    if isLetter c then schemeLoop (S i) (seen +:+ String c "") rest' rawURL
    else if regexp.isDigit c || strings.hasByte "+-." c then
      match i with
      | O => Ok (EmptyString, rawURL)
      | S _ => schemeLoop (S i) (seen +:+ String c "") rest' rawURL
      end
    else if Ascii.eqb c ":" then
      match i with
      | O => Err (UrlError "parse" rawURL "missing protocol scheme")
      | S _ => Ok (seen, rest')
      end
    else
      (* invalid character, so there is no valid scheme *)
      Ok (EmptyString, rawURL)
  end.

Definition getScheme (rawURL : string) : res (string * string) :=
  schemeLoop 0 EmptyString rawURL rawURL.

Fixpoint allDigits (s : string) : bool :=
  match s with
  | EmptyString => true
  | String c s' => regexp.isDigit c && allDigits s'
  end.

(** The text from the last [sep] of [s] on, when [s] has one. *)
Fixpoint fromLast (s : string) (sep : ascii) : option string :=
  match s with
  | EmptyString => None
  | String c s' =>
    match fromLast s' sep with
    | Some t => Some t
    | None => if Ascii.eqb c sep then Some s else None
    end
  end.

(** [validOptionalPort] on the text from the last colon of the host on. *)
Definition validPort (host : string) : bool :=
  match fromLast host ":" with
  | Some (String _ port) => allDigits port
  | _ => true
  end.

(** [s] up to and including its last [sep]; "" when it has none. *)
Fixpoint throughLast (s : string) (sep : ascii) : string :=
  match s with
  | EmptyString => EmptyString
  | String c s' =>
    if strings.hasByte s sep then
      if strings.hasByte s' sep then String c (throughLast s' sep)
      else String c EmptyString
    else EmptyString
  end.

(** [parseAuthority]: the text before the last "@" is the user
    information. *)
Definition parseAuthority (authority : string) : option string * string :=
  match fromLast authority "@" with
  | Some (String _ host) =>
    let before :=
      String.substring 0 (String.length authority - String.length host - 1)
                       authority in
    (Some before, host)
  | _ => (None, authority)
  end.

Definition empty : url.URL :=
  {| url.Scheme := ""; url.Opaque := ""; url.User := None; url.Host := "";
     url.Path := ""; url.ForceQuery := false; url.RawQuery := "";
     url.Fragment := "" |}.

(** [url.Parse(rawURL)]. *)
Definition Parse (rawURL : string) : res url.URL :=
  (* Cut off #frag *)
  let '(u, frag) := Cut rawURL "#" in
  let frag := default EmptyString frag in
  if containsCTLByte u then
    Err (UrlError "parse" u "net/url: invalid control character in URL")
  else if String.eqb u "*" then
    Ok {| url.Scheme := ""; url.Opaque := ""; url.User := None;
          url.Host := ""; url.Path := "*"; url.ForceQuery := false;
          url.RawQuery := ""; url.Fragment := frag |}
  else
    (* Split off possible leading "http:", "mailto:", etc. *)
    match getScheme u with
    | Err e => Err e
    | Ok (scheme, rest) =>
      let scheme := ToLower scheme in
      let '(rest, query) := Cut rest "?" in
      let force := match query with Some EmptyString => true | _ => false end in
      let query := default EmptyString query in
      if negb (strings.HasPrefix rest "/") && negb (String.eqb scheme "") then
        (* We consider rootless paths per RFC 3986 as opaque. *)
        Ok {| url.Scheme := scheme; url.Opaque := rest; url.User := None;
              url.Host := ""; url.Path := ""; url.ForceQuery := force;
              url.RawQuery := query; url.Fragment := frag |}
      else if negb (strings.HasPrefix rest "/")
              && strings.hasByte (Cut rest "/").1 ":" then
        (* First path segment has colon. Not allowed in relative URL. *)
        Err (UrlError "parse" u
                      "first path segment in URL cannot contain colon")
      else if (negb (String.eqb scheme "")
               || negb (strings.HasPrefix rest "///"))
              && strings.HasPrefix rest "//" then
        let authority :=
          String.substring 2 (String.length rest - 2) rest in
        let '(authority, rest) :=
          match Cut authority "/" with
          | (a, Some r) => (a, String "/" r)
          | (a, None) => (a, EmptyString)
          end in
        let '(user, host) := parseAuthority authority in
        if validPort host then
          Ok {| url.Scheme := scheme; url.Opaque := ""; url.User := user;
                url.Host := host; url.Path := rest; url.ForceQuery := force;
                url.RawQuery := query; url.Fragment := frag |}
        else
          Err (UrlError "parse" u "invalid port after host")
      else
        Ok {| url.Scheme := scheme; url.Opaque := ""; url.User := None;
              url.Host := ""; url.Path := rest; url.ForceQuery := force;
              url.RawQuery := query; url.Fragment := frag |}
    end.

(** The element loop of [resolvePath]: "." is dropped, ".." removes the
    element before it. *)
Fixpoint resolveElems (dst src : list string) : list string :=
  match src with
  | [] => dst
  | elem :: rest =>
    if String.eqb elem path.dot then resolveElems dst rest
    else if String.eqb elem path.dotdot then
      resolveElems (removelast dst) rest
    else resolveElems (dst ++ [elem]) rest
  end.

(** [resolvePath(base, ref)]: [ref] merged with the directory of [base],
    the dot elements removed. *)
Definition resolvePath (base ref : string) : string :=
  let full :=
    match ref with
    | EmptyString => base
    | String c _ =>
      if Ascii.eqb c "/" then ref else throughLast base "/" +:+ ref
    end in
  match full with
  | EmptyString => EmptyString
  | _ =>
    let src := strings.Split full "/" in
    let dst := resolveElems [] src in
    let last := List.last src EmptyString in
    let dst :=
      if String.eqb last path.dot || String.eqb last path.dotdot
      then dst ++ [EmptyString] (* Add final slash to the joined path. *)
      else dst in
    let joined := strings.Join dst "/" in
    String "/" (match joined with
                | String "/" t => t
                | _ => joined
                end)
  end.

Definition setPath (u : url.URL) (p : string) : url.URL :=
  {| url.Scheme := url.Scheme u; url.Opaque := url.Opaque u;
     url.User := url.User u; url.Host := url.Host u; url.Path := p;
     url.ForceQuery := url.ForceQuery u; url.RawQuery := url.RawQuery u;
     url.Fragment := url.Fragment u |}.

(** [u.ResolveReference(ref)]. *)
Definition ResolveReference (u ref : url.URL) : url.URL :=
  let scheme :=
    if String.eqb (url.Scheme ref) "" then url.Scheme u else url.Scheme ref in
  if negb (String.eqb (url.Scheme ref) "")
     || negb (String.eqb (url.Host ref) "")
     || bool_decide (is_Some (url.User ref)) then
    (* The "absoluteURI" or "net_path" cases. *)
    {| url.Scheme := scheme; url.Opaque := url.Opaque ref;
       url.User := url.User ref; url.Host := url.Host ref;
       url.Path := resolvePath (url.Path ref) "";
       url.ForceQuery := url.ForceQuery ref;
       url.RawQuery := url.RawQuery ref; url.Fragment := url.Fragment ref |}
  else if negb (String.eqb (url.Opaque ref) "") then
    {| url.Scheme := scheme; url.Opaque := url.Opaque ref;
       url.User := None; url.Host := ""; url.Path := "";
       url.ForceQuery := url.ForceQuery ref;
       url.RawQuery := url.RawQuery ref; url.Fragment := url.Fragment ref |}
  else
    let bare :=
      String.eqb (url.Path ref) "" && negb (url.ForceQuery ref)
      && String.eqb (url.RawQuery ref) "" in
    let query := if bare then url.RawQuery u else url.RawQuery ref in
    let fragment :=
      if bare && String.eqb (url.Fragment ref) "" then url.Fragment u
      else url.Fragment ref in
    if String.eqb (url.Path ref) "" && negb (String.eqb (url.Opaque u) "")
    then
      {| url.Scheme := scheme; url.Opaque := url.Opaque u;
         url.User := None; url.Host := ""; url.Path := "";
         url.ForceQuery := url.ForceQuery ref;
         url.RawQuery := query; url.Fragment := fragment |}
    else
      (* The "abs_path" or "rel_path" cases. *)
      {| url.Scheme := scheme; url.Opaque := "";
         url.User := url.User u; url.Host := url.Host u;
         url.Path := resolvePath (url.Path u) (url.Path ref);
         url.ForceQuery := url.ForceQuery ref;
         url.RawQuery := query; url.Fragment := fragment |}.

(** [u.String()]. *)
Definition URL_String (u : url.URL) : string :=
  let scheme :=
    if String.eqb (url.Scheme u) "" then EmptyString
    else url.Scheme u +:+ ":" in
  let body :=
    if negb (String.eqb (url.Opaque u) "") then url.Opaque u
    else
      let authority :=
        if negb (String.eqb (url.Scheme u) "")
           || negb (String.eqb (url.Host u) "")
           || bool_decide (is_Some (url.User u)) then
          (if negb (String.eqb (url.Host u) "")
              || negb (String.eqb (url.Path u) "")
              || bool_decide (is_Some (url.User u))
           then "//" else EmptyString)
          +:+ match url.User u with
              | Some ui => ui +:+ "@"
              | None => EmptyString
              end
          +:+ url.Host u
        else EmptyString in
      let slash :=
        if negb (String.eqb (url.Path u) "")
           && negb (strings.HasPrefix (url.Path u) "/")
           && negb (String.eqb (url.Host u) "")
        then "/" else EmptyString in
      let dotSlash :=
        if String.eqb (scheme +:+ authority +:+ slash) ""
           && strings.hasByte (Cut (url.Path u) "/").1 ":"
        then "./" else EmptyString in
      authority +:+ slash +:+ dotSlash +:+ url.Path u in
  let query :=
    if url.ForceQuery u || negb (String.eqb (url.RawQuery u) "")
    then "?" +:+ url.RawQuery u else EmptyString in
  let fragment :=
    if negb (String.eqb (url.Fragment u) "")
    then "#" +:+ url.Fragment u else EmptyString in
  scheme +:+ body +:+ query +:+ fragment.

#[export] Instance lib : url.Lib :=
  {| url.Parse := Parse;
     url.ResolveReference := ResolveReference;
     url.URL_String := URL_String |}.

End neturl.

(** * A small web for the examples *)

Module demo.

Definition text (s : string) : html.Node :=
  html.mkNode html.TextNode atom.Zero s [] [].

Definition elem (a : atom.Atom) (tag : string) (attrs : list (string * string))
           (children : list html.Node) : html.Node :=
  html.mkNode html.ElementNode a tag
              (map (fun kv => {| html.Key := kv.1; html.Val := kv.2 |}) attrs)
              children.

(** The tree of a page with the given body: the parser supplies the
    document, [html], [head] and [body] nodes. *)
Definition page (body : list html.Node) : html.Node :=
  html.mkNode html.DocumentNode atom.Zero EmptyString []
    [elem atom.Html "html" []
          [elem atom.Head "head" [] []; elem atom.Body "body" [] body]].

Definition a (href label : string) : html.Node :=
  elem atom.A "a" [("href", href)] [text label].

(** A search result of the aggregator: the link to a PDF in its box. *)
Definition result (href : string) : html.Node :=
  elem atom.Div "div" [("class", "gs_or_ggsm")] [a href "[PDF]"].

(** The markup of a tree, as [html.Render] writes it. *)
Fixpoint render (n : html.Node) : string :=
  match n with
  | html.mkNode type _ data attr children =>
    let inner :=
      (fix each (cs : list html.Node) : string :=
         match cs with
         | [] => EmptyString
         | c :: cs' => render c +:+ each cs'
         end) children in
    match type with
    | html.TextNode => data
    | html.ElementNode =>
      "<" +:+ data
      +:+ fold_right
            (fun x acc =>
               " " +:+ html.Key x +:+ "='" +:+ html.Val x +:+ "'" +:+ acc)
            EmptyString attr
      +:+ ">" +:+ inner +:+ "</" +:+ data +:+ ">"
    | _ => inner
    end
  end.

Definition gatedPdf : string :=
  "http://www.ieee-security.org/TC/SP2015/papers/a.pdf".

(** The pages of the web, by URL. *)
Definition pages : list (string * html.Node) :=
  [ (* a listing with two direct links *)
    ("http://example/listing",
     page [a "/papers/a.pdf" "[PDF]"; a "/papers/b.pdf" "[PDF]"]);
    (* a paper page with one link in a box of class "file" *)
    ("http://example/paper1",
     page [elem atom.Span "span" [("class", "file")] [a "files/p1.pdf" "PDF"]]);
    (* a paper page without a link *)
    ("http://example/paper0", page [a "about.html" "About"]);
    (* a search whose only result is on the gated domain, with a list of
       versions *)
    ("https://scholar.google.com/scholar?q=A+Paper",
     page [result gatedPdf; a "/scholar?cluster=7" "All 12 versions"]);
    ("https://scholar.google.com/scholar?cluster=7",
     page [result gatedPdf; result "http://mirror.example.org/a.pdf"]);
    (* a search whose only result is on the gated domain, without a list of
       versions *)
    ("https://scholar.google.com/scholar?q=No+Versions",
     page [result gatedPdf]);
    (* a search with two results, the first on the gated domain *)
    ("https://scholar.google.com/scholar?q=Two+Results",
     page [result gatedPdf; result "http://mirror.example.org/a.pdf"]);
    (* a search whose list of versions is served by the gated domain and
       links its PDF relatively *)
    ("https://scholar.google.com/scholar?q=Relative",
     page [result gatedPdf;
           a "http://www.ieee-security.org/TC/SP2015/versions.html"
             "All 2 versions"]);
    ("http://www.ieee-security.org/TC/SP2015/versions.html",
     page [result "papers/a.pdf"]);
    (* a page of the gated domain that lists itself as its versions *)
    ("http://www.ieee-security.org/TC/SP2015/index.html",
     page [result "papers/a.pdf"; a "index.html" "All 1 versions"]) ].

(** The files of the web, by URL. *)
Definition files : list (string * string) :=
  [ ("http://example/papers/a.pdf", "%PDF-1.4 paper a");
    ("http://example/papers/b.pdf", "%PDF-1.4 paper b");
    ("http://example/files/p1.pdf", "%PDF-1.4 paper 1");
    ("http://example/papers/a.pdf?download=1", "%PDF-1.4 paper a");
    ("http://mirror.example.org/a.pdf", "%PDF-1.4 mirrored") ].

Fixpoint assoc {A} (l : list (string * A)) (k : string) : option A :=
  match l with
  | [] => None
  | (k', v) :: rest => if String.eqb k' k then Some v else assoc rest k
  end.

Definition complete (bytes : string) : http.Response :=
  {| http.Body := {| data := bytes; failure := None |} |}.

Definition resetErr : error := NetError "connection reset by peer".
Definition refusedErr : error := NetError "connection refused".

(** What the web answers: a page, a file, a file whose transfer breaks off
    after nine bytes, or no connection. *)
Definition serve (u : string) : res http.Response :=
  match assoc pages u with
  | Some tree => Ok (complete (render tree))
  | None =>
    match assoc files u with
    | Some bytes => Ok (complete bytes)
    | None =>
      if String.eqb u "http://example/papers/broken.pdf" then
        Ok {| http.Body := {| data := "%PDF-1.4 "; failure := Some resetErr |} |}
      else Err refusedErr
    end
  end.

(** The parser on the pages of this web; other bytes give an empty
    document. *)
Definition parseBytes (bytes : string) : res html.Node :=
  match filter (fun p => String.eqb (render p.2) bytes) pages with
  | p :: _ => Ok p.2
  | [] => Ok (page [])
  end.

#[export] Instance web : http.Web := {| http.serve := serve |}.
#[export] Instance parser : html.Parser := {| html.parseBytes := parseBytes |}.
#[export] Instance platform : Platform :=
  {| platform_url := neturl.lib; platform_web := web;
     platform_html := parser |}.

(** The world before a run: nothing on disk, nothing done. *)
Definition start : World := {| fs := ∅; trace := [] |}.

(** A world with the output directory in place, and one in which the
    process may not search it. *)
Definition withPapers : World :=
  {| fs := {["papers" := fsys.Directory true]}; trace := [] |}.
Definition lockedPapers : World :=
  {| fs := {["papers" := fsys.Directory false]}; trace := [] |}.

(** A conference of the configuration, and a world in which its directory
    is in place. *)
Definition ndss2018 : Conference :=
  {| Name := "NDSS"; URL := "http://example/listing"; Year := 2018 |}.
Definition withConfDir : World :=
  {| fs := <["papers/NDSS/2018" := fsys.Directory true]>
             (<["papers/NDSS" := fsys.Directory true]>
                {["papers" := fsys.Directory true]});
     trace := [] |}.

(** The parsed page behind a URL of [pages]. *)
Definition root (u : string) : html.Ptr :=
  {| html.node := default (page []) (assoc pages u); html.above := [] |}.

End demo.

(** * A second small web: the site of a conference and a list of titles

    It serves a listing whose sessions link the pages of two papers, one with
    a file and one without, and a programme that names a paper in bold; what
    it does not have, the first web serves. *)

Module site.

(** A session of the listing: the link to the page of a paper, two levels
    below a box of class "node-paper". *)
Definition session (href title : string) : html.Node :=
  demo.elem atom.Div "div" [("class", "node node-paper view-mode-schedule")]
    [demo.elem atom.Span "span" [] [demo.a href title]].

Definition pages : list (string * html.Node) :=
  [ ("http://usenix.example/technical-sessions",
     demo.page [session "/presentation/alice" "A Paper";
                session "/presentation/bob" "Another Paper"]);
    ("http://usenix.example/presentation/alice",
     demo.page [demo.elem atom.Span "span" [("class", "file")]
                          [demo.a "/system/files/alice.pdf" "PDF"]]);
    ("http://usenix.example/presentation/bob",
     demo.page [demo.a "/slides/bob" "Slides"]);
    ("http://oakland.example/program",
     demo.page [demo.elem atom.Li "li" [("class", "list-group-item")]
                          [demo.elem atom.B "b" [] [demo.text "A Paper"]]]);
    (* a search whose only result is on the gated domain; its list of
       versions is served by the gated domain and has two results: a relative
       link to the PDF of the gated domain, and one to a mirror *)
    ("https://scholar.google.com/scholar?q=Mirrored",
     demo.page [demo.result demo.gatedPdf;
                demo.a "http://www.ieee-security.org/TC/SP2015/mirrors.html"
                       "All 2 versions"]);
    ("http://www.ieee-security.org/TC/SP2015/mirrors.html",
     demo.page [demo.result "papers/a.pdf";
                demo.result "http://mirror.example.org/a.pdf"]) ].

Definition files : list (string * string) :=
  [ ("http://usenix.example/system/files/alice.pdf", "%PDF-1.4 alice") ].

Definition serve (u : string) : res http.Response :=
  match demo.assoc pages u with
  | Some tree => Ok (demo.complete (demo.render tree))
  | None =>
    match demo.assoc files u with
    | Some bytes => Ok (demo.complete bytes)
    | None => demo.serve u
    end
  end.

Definition parseBytes (bytes : string) : res html.Node :=
  match filter (fun p => String.eqb (demo.render p.2) bytes)
               (pages ++ demo.pages) with
  | p :: _ => Ok p.2
  | [] => Ok (demo.page [])
  end.

#[export] Instance web : http.Web := {| http.serve := serve |}.
#[export] Instance parser : html.Parser := {| html.parseBytes := parseBytes |}.
#[export] Instance platform : Platform :=
  {| platform_url := neturl.lib; platform_web := web;
     platform_html := parser |}.

(** The parsed page behind a URL of [pages]. *)
Definition root (u : string) : html.Ptr :=
  {| html.node := default (demo.page []) (demo.assoc pages u);
     html.above := [] |}.

(** A configuration with the given conferences, otherwise as the flags
    default in part_000. *)
Definition configOf (conferences : list Conference) : Config :=
  {| fetchTimeout := 2 * time.Second;
     conferencesFile := "conferences.json";
     outputDirectory := "papers";
     conferences := conferences |}.

Definition usenix2018 : Conference :=
  {| Name := "USENIX"; URL := "http://usenix.example/technical-sessions";
     Year := 2018 |}.
Definition oakland2015 : Conference :=
  {| Name := "Oakland"; URL := "http://oakland.example/program";
     Year := 2015 |}.
Definition ccs2017 : Conference :=
  {| Name := "CCS"; URL := "http://example/listing"; Year := 2017 |}.

(** A disk on which an earlier run has left the first paper of CCS 2017. *)
Definition earlier : World :=
  {| fs := <["papers/CCS/2017/a.pdf" := fsys.RegularFile "an earlier download"]>
             (<["papers/CCS/2017" := fsys.Directory true]>
                (<["papers/CCS" := fsys.Directory true]>
                   {["papers" := fsys.Directory true]}));
     trace := [] |}.

End site.

(** * The vocabulary of the properties *)

Section Vocabulary.

Context `{Platform}.

(** The page behind [pageUrl] is served and parsed to [root]. *)
Definition fetched (pageUrl : string) (root : html.Ptr) : Prop :=
  exists response,
    http.serve pageUrl = Ok response
    /\ html.Parse (http.Body response) = Ok root.

(** The anchor [n] resolves against [pageUrl] to [fileUrl]. *)
Definition resolvesTo (pageUrl : string) (n : html.Ptr) (fileUrl : string)
  : Prop :=
  getFullUrl pageUrl (scrape.Attr n "href") = (fileUrl, None).

(** The page behind [pageUrl] is not served, or cannot be read. *)
Definition unread (pageUrl : string) (e : error) : Prop :=
  http.serve pageUrl = Err e
  \/ exists response,
      http.serve pageUrl = Ok response
      /\ html.Parse (http.Body response) = Err e.

(** The page of a paper has the one [link] for [urlMatcher], or none. *)
Definition pageLink (urlMatcher : scrape.Matcher) (pageUrl : string)
           (link : option string) : Prop :=
  exists root,
    fetched pageUrl root
    /\ match link with
       | Some u =>
         exists n,
           scrape.FindAll root urlMatcher = [n] /\ resolvesTo pageUrl n u
       | None => scrape.FindAll root urlMatcher = []
       end.

(** A round of a loop that does something that leaves the files alone
    (adding [before] to the trace) and then saves the link, if there is
    one. *)
Definition saves (config : Config) (dir : string) {A}
           (body : A -> M unit) (before : A -> list Event)
           (x : A) (link : option string) : Prop :=
  forall w,
    body x w
    = match link with
      | Some u =>
        saveLink config dir u {| fs := fs w; trace := trace w ++ before x |}
      | None => Returned tt {| fs := fs w; trace := trace w ++ before x |}
      end.

End Vocabulary.

(** The run came to an end within the recursion budget. *)
Definition finished {A} (r : Run A) : Prop :=
  match r with
  | OutOfFuel => False
  | _ => True
  end.

(** The line [downloadFile] logs when it skips. *)
Definition skipLine (filepath : string) : string :=
  "skipping download, file already exists: " +:+ filepath +:+ ", " +:+ nl.

(** A path element that [path.Clean] leaves alone: not empty, not "." or
    "..", without a slash. *)
Definition plain (e : string) : bool :=
  negb (String.eqb e EmptyString) && negb (String.eqb e path.dot)
  && negb (String.eqb e path.dotdot) && negb (strings.hasByte e "/").

(** <output-dir>/<conference-name>/<year>, as text. *)
Definition layoutDir (outputDirectory : string) (conf : Conference) : string :=
  outputDirectory +:+ "/" +:+ Name conf +:+ "/" +:+ strconv.Itoa (Year conf).

(** <dir>/<filename>, the file name being the one the driver takes from the
    URL. *)
Definition layoutFile (dir downloadUrl : string) : string :=
  dir +:+ "/" +:+ fileName downloadUrl.

(** The world a run ends in, when it ends. *)
Definition outcome {A} (r : Run A) : option World :=
  match r with
  | Returned _ w => Some w
  | Exited w => Some w
  | OutOfFuel => None
  end.

(** An event that is not a pause of another length than [d]. *)
Definition pauseOf (d : Z) (e : Event) : Prop :=
  match e with
  | SLEEP d' => d' = d
  | _ => True
  end.

(** [w'] comes after [w]: every path names in [w'] what it named in [w], and
    the trace of [w'] continues that of [w], with pauses of length [d] only. *)
Definition after (d : Z) (w w' : World) : Prop :=
  (forall k e, fsys.entry (fs w) k = Some e -> fsys.entry (fs w') k = Some e)
  /\ exists added, trace w' = trace w ++ added /\ Forall (pauseOf d) added.

(** Every run of [m] that ends, ends in a world that comes after the one it
    started in. *)
Definition steps (d : Z) {A} (m : M A) : Prop :=
  forall w w', outcome (m w) = Some w' -> after d w w'.

(** The conferences the last revision (part_000) has a rule for, by name and
    year. *)
Definition hasRule (conf : Conference) : bool :=
  String.eqb (Name conf) "USENIX"
  || String.eqb (Name conf) "NDSS"
     && ((2014 <=? Year conf)%Z && (Year conf <=? 2018)%Z)
  || String.eqb (Name conf) "Oakland" && (Year conf <=? 2018)%Z
  || String.eqb (Name conf) "CCS" && (Year conf =? 2017)%Z.

(** The conferences whose listing links the papers themselves, with the
    matcher of the rule. *)
Definition directLinks (conf : Conference) : option scrape.Matcher :=
  if String.eqb (Name conf) "NDSS" then
    if (Year conf =? 2018)%Z then Some (matchers.anchorText "Paper")
    else if (Year conf =? 2016)%Z then Some matchers.underH3
    else None
  else if String.eqb (Name conf) "CCS" then
    if (Year conf =? 2017)%Z then Some (matchers.anchorText "[PDF]") else None
  else None.

(** The conferences whose listing links the pages of the papers, with the
    matchers of the rule in main.go and part_000: for the listing and for the
    page of a paper. *)
Definition paperPages (conf : Conference)
  : option (scrape.Matcher * scrape.Matcher) :=
  if String.eqb (Name conf) "USENIX" then
    Some (matchers.usenixPage, matchers.usenixFile)
  else if String.eqb (Name conf) "NDSS" then
    if (Year conf =? 2017)%Z || (Year conf =? 2015)%Z || (Year conf =? 2014)%Z
    then Some (matchers.underH3, matchers.anchorText "Paper")
    else None
  else None.

(** What the round of a download loop adds to the trace for a link: the line
    that names it, the GET and the pause. *)
Definition round (d : Z) (link : option string) : list Event :=
  match link with
  | Some u => [LOG (u +:+ nl); GET u; SLEEP d]
  | None => []
  end.

(** A text of decimal digits. *)
Definition decimal (digits : string) : Prop :=
  Forall (fun c => regexp.isDigit c = true)
         (String.list_ascii_of_string digits).

(** The search of the aggregator for a title, as the Oakland loops write
    it. *)
Definition searchFor (title : string) : string :=
  "https://scholar.google.com/scholar?q=" +:+ strings.ReplaceAll title " " "+".

(** * Properties *)

(** Unfolding the monad of runs. *)
Ltac run_step :=
  unfold mbind, M_bind, bind, mret, M_ret, ret,
         http.Get, log.Print, log.Println, log.Fatal, time.Sleep,
         os.Stat, os.Create, os.MkdirAll, io.Copy in *.

(** ** The tree queries *)

Section Queries.

(** Induction on a node, with the property known of its children. *)
Lemma Node_children_ind (P : html.Node -> Prop) :
  (forall type dataAtom data attr children,
      Forall P children -> P (html.mkNode type dataAtom data attr children)) ->
  forall n, P n.
Proof.
  intros Hnode. fix IH 1. intros [type dataAtom data attr children].
  apply Hnode. induction children as [|c cs IHcs]; constructor.
  - apply IH.
  - exact IHcs.
Qed.

(** Every node [scrape.FindAll] returns satisfies the matcher. *)
Lemma FindAll_matches (root : html.Ptr) (matcher : scrape.Matcher) :
  Forall (fun n => matcher n = true) (scrape.FindAll root matcher).
Proof.
  unfold scrape.FindAll. generalize (html.above root) as up.
  generalize (html.node root) as n. clear root.
  induction n as [type dataAtom data attr children IH]
    using Node_children_ind.
  intros up. simpl.
  destruct (matcher {| html.node := _; html.above := up |}) eqn:Hm;
    [now repeat constructor|]. clear Hm.
  generalize (html.mkNode type dataAtom data attr children :: up) as up'.
  intros up'. induction IH as [|c cs Hc _ IHcs]; [constructor|].
  apply Forall_app. split; [apply Hc | exact IHcs].
Qed.

(** [scrape.Find] returns a node that satisfies the matcher. *)
Lemma Find_matches (root found : html.Ptr) (matcher : scrape.Matcher) :
  scrape.Find root matcher = Some found -> matcher found = true.
Proof.
  unfold scrape.Find. generalize (html.above root) as up.
  generalize (html.node root) as n. clear root.
  induction n as [type dataAtom data attr children IH]
    using Node_children_ind.
  intros up. simpl.
  destruct (matcher {| html.node := _; html.above := up |}) eqn:Hm;
    [now intros [= <-]|]. clear Hm.
  generalize (html.mkNode type dataAtom data attr children :: up) as up'.
  intros up'. induction IH as [|c cs Hc _ IHcs]; [discriminate|].
  destruct (scrape.find matcher up' c) eqn:Hf; [|exact IHcs].
  intros [= <-]. exact (Hc _ Hf).
Qed.

End Queries.

(** ** The model of [net/url] on the examples of RFC 3986 *)

(** The reference resolution examples of RFC 3986, section 5.4.1 (normal)
    and 5.4.2 (abnormal; "http:g" as a strict parser resolves it), through
    [getFullUrl] on the model: each reference, resolved against
    "http://a/b/c/d;p?q", gives the URL the RFC lists. *)
Example getFullUrl_rfc3986_normal :
  map (fun ref => @getFullUrl demo.platform "http://a/b/c/d;p?q" ref)
    [
      "g:h"; "g"; "./g"; "g/"; "/g"; "//g"; "?y"; "g?y"; "#s"; "g#s";
      "g?y#s"; ";x"; "g;x"; "g;x?y#s"; ""; "."; "./"; ".."; "../"; "../g";
      "../.."; "../../"; "../../g" ]
  = map (fun target => (target, None))
    [
      "g:h"; "http://a/b/c/g"; "http://a/b/c/g"; "http://a/b/c/g/";
      "http://a/g"; "http://g"; "http://a/b/c/d;p?y"; "http://a/b/c/g?y";
      "http://a/b/c/d;p?q#s"; "http://a/b/c/g#s"; "http://a/b/c/g?y#s";
      "http://a/b/c/;x"; "http://a/b/c/g;x"; "http://a/b/c/g;x?y#s";
      "http://a/b/c/d;p?q"; "http://a/b/c/"; "http://a/b/c/";
      "http://a/b/"; "http://a/b/"; "http://a/b/g"; "http://a/";
      "http://a/"; "http://a/g" ].
Proof. reflexivity. Qed.

Example getFullUrl_rfc3986_abnormal :
  map (fun ref => @getFullUrl demo.platform "http://a/b/c/d;p?q" ref)
    [
      "../../../g"; "../../../../g"; "/./g"; "/../g"; "g."; ".g"; "g..";
      "..g"; "./../g"; "./g/."; "g/./h"; "g/../h"; "g;x=1/./y";
      "g;x=1/../y"; "g?y/./x"; "g?y/../x"; "g#s/./x"; "g#s/../x"; "http:g" ]
  = map (fun target => (target, None))
    [
      "http://a/g"; "http://a/g"; "http://a/g"; "http://a/g";
      "http://a/b/c/g."; "http://a/b/c/.g"; "http://a/b/c/g..";
      "http://a/b/c/..g"; "http://a/b/g"; "http://a/b/c/g/";
      "http://a/b/c/g/h"; "http://a/b/c/h"; "http://a/b/c/g;x=1/y";
      "http://a/b/c/y"; "http://a/b/c/g?y/./x"; "http://a/b/c/g?y/../x";
      "http://a/b/c/g#s/./x"; "http://a/b/c/g#s/../x"; "http:g" ].
Proof. reflexivity. Qed.

(** ** URL resolution *)

Section UrlResolution.

Context `{Platform}.

Lemma getFullUrl_unparsed (baseUrl linkUrl : string) (e : error) :
  url.Parse linkUrl = Err e ->
  getFullUrl baseUrl linkUrl = (EmptyString, Some e).
Proof. intros Hp. unfold getFullUrl. now rewrite Hp. Qed.

Lemma getFullUrl_resolves (baseUrl linkUrl : string) (link : url.URL) :
  url.Parse linkUrl = Ok link ->
  url.Host link = EmptyString \/ url.Scheme link = EmptyString ->
  getFullUrl baseUrl linkUrl =
  match url.Parse baseUrl with
  | Err e => (EmptyString, Some e)
  | Ok base => (url.URL_String (url.ResolveReference base link), None)
  end.
Proof.
  intros Hp Hrel. unfold getFullUrl, url.URL_Parse. rewrite Hp.
  assert (String.eqb (url.Host link) EmptyString
          || String.eqb (url.Scheme link) EmptyString = true) as ->.
  { apply orb_true_iff. destruct Hrel as [-> | ->]; auto. }
  destruct (url.Parse baseUrl); reflexivity.
Qed.

Lemma getFullUrl_keeps (baseUrl linkUrl : string) (link : url.URL) :
  url.Parse linkUrl = Ok link ->
  url.Scheme link <> EmptyString ->
  url.Host link <> EmptyString ->
  getFullUrl baseUrl linkUrl = (linkUrl, None).
Proof.
  intros Hp Hs%String.eqb_neq Hh%String.eqb_neq.
  unfold getFullUrl. now rewrite Hp, Hs, Hh.
Qed.

End UrlResolution.

(** C3: a candidate link that parses and has both a scheme and a host comes
    back unchanged from [getFullUrl], whatever the base is (the base is not
    even parsed). *)
Theorem getFullUrl_absolute_unchanged `{Platform}
        (baseUrl linkUrl : string) (link : url.URL) :
  url.Parse linkUrl = Ok link ->
  url.Scheme link <> EmptyString ->
  url.Host link <> EmptyString ->
  getFullUrl baseUrl linkUrl = (linkUrl, None).
Proof.
  intros Hp Hs Hh. unfold getFullUrl. rewrite Hp.
  apply String.eqb_neq in Hs, Hh. now rewrite Hs, Hh.
Qed.

Lemma getFullUrl_absolute_unchanged_witness :
  @getFullUrl demo.platform ":not a base" "http://x.org/papers/a.pdf"
  = ("http://x.org/papers/a.pdf", None).
Proof.
  eapply (@getFullUrl_absolute_unchanged demo.platform);
    [ reflexivity | discriminate | discriminate ].
Defined.



(** ** The download-URL resolver *)

Section Resolver.

Context `{Platform}.

(** The first revision is the second with the matcher fixed. *)
Lemma Part001_getDownloadUrl_eq (pageUrl : string) :
  Part001.getDownloadUrl pageUrl
  = Main.getDownloadUrl pageUrl matchers.usenixFile.
Proof. reflexivity. Qed.

Lemma Main_none (pageUrl : string) (matcher : scrape.Matcher)
      (root : html.Ptr) (w : World) :
  fetched pageUrl root ->
  scrape.FindAll root matcher = [] ->
  Main.getDownloadUrl pageUrl matcher w
  = Returned (EmptyString, Some MissingDownloadLinkErr) (emit (GET pageUrl) w).
Proof.
  intros (response & Hs & Hp) Hn. unfold Main.getDownloadUrl. run_step.
  now rewrite Hs, Hp, Hn.
Qed.

Lemma Main_one (pageUrl : string) (matcher : scrape.Matcher)
      (root n : html.Ptr) (fileUrl : string) (w : World) :
  fetched pageUrl root ->
  scrape.FindAll root matcher = [n] ->
  resolvesTo pageUrl n fileUrl ->
  Main.getDownloadUrl pageUrl matcher w
  = Returned (fileUrl, None) (emit (GET pageUrl) w).
Proof.
  intros (response & Hs & Hp) Hn Hr. unfold Main.getDownloadUrl. run_step.
  now rewrite Hs, Hp, Hn, Hr.
Qed.

Lemma Main_many (pageUrl : string) (matcher : scrape.Matcher)
      (root n n' : html.Ptr) (others : list html.Ptr) (fileUrl : string)
      (w : World) :
  fetched pageUrl root ->
  scrape.FindAll root matcher = n :: n' :: others ->
  resolvesTo pageUrl n fileUrl ->
  Main.getDownloadUrl pageUrl matcher w
  = Returned (fileUrl, Some TooManyDownloadLinksErr) (emit (GET pageUrl) w).
Proof.
  intros (response & Hs & Hp) Hn Hr. unfold Main.getDownloadUrl. run_step.
  now rewrite Hs, Hp, Hn, Hr.
Qed.

Lemma Part000_none (fuel : nat) (pageUrl : string) (matcher : scrape.Matcher)
      (root : html.Ptr) (w : World) :
  fetched pageUrl root ->
  scrape.FindAll root matcher = [] ->
  Part000.getDownloadUrl (S fuel) pageUrl matcher w
  = Returned (EmptyString, Some MissingDownloadLinkErr) (emit (GET pageUrl) w).
Proof.
  intros (response & Hs & Hp) Hn. simpl. run_step.
  now rewrite Hs, Hp, Hn.
Qed.

Lemma Part000_many (fuel : nat) (pageUrl : string) (matcher : scrape.Matcher)
      (root n n' : html.Ptr) (others : list html.Ptr) (fileUrl : string)
      (w : World) :
  fetched pageUrl root ->
  scrape.FindAll root matcher = n :: n' :: others ->
  resolvesTo pageUrl n fileUrl ->
  Part000.getDownloadUrl (S fuel) pageUrl matcher w
  = Returned (fileUrl, Some TooManyDownloadLinksErr) (emit (GET pageUrl) w).
Proof.
  intros (response & Hs & Hp) Hn Hr. simpl. run_step.
  now rewrite Hs, Hp, Hn, Hr.
Qed.

(** One matching anchor that does not lead to the gated domain. *)
Lemma Part000_one_open (fuel : nat) (pageUrl : string)
      (matcher : scrape.Matcher) (root n : html.Ptr) (fileUrl : string)
      (w : World) :
  fetched pageUrl root ->
  scrape.FindAll root matcher = [n] ->
  resolvesTo pageUrl n fileUrl ->
  strings.Contains fileUrl Part000.gate = false ->
  Part000.getDownloadUrl (S fuel) pageUrl matcher w
  = Returned (fileUrl, None) (emit (GET pageUrl) w).
Proof.
  intros (response & Hs & Hp) Hn Hr Hg. simpl. run_step.
  now rewrite Hs, Hp, Hn, Hr, Hg.
Qed.

(** One matching anchor that leads to the gated domain, on a page without a
    list of versions: the process exits. *)
Lemma Part000_one_gated_fatal (fuel : nat) (pageUrl : string)
      (matcher : scrape.Matcher) (root n : html.Ptr) (fileUrl : string)
      (w : World) :
  fetched pageUrl root ->
  scrape.FindAll root matcher = [n] ->
  resolvesTo pageUrl n fileUrl ->
  strings.Contains fileUrl Part000.gate = true ->
  scrape.Find root Part000.allVersionsMatcher = None ->
  Part000.getDownloadUrl (S fuel) pageUrl matcher w
  = Exited (emit (LOG ("no version link found for: " +:+ fileUrl))
                 (emit (GET pageUrl) w)).
Proof.
  intros (response & Hs & Hp) Hn Hr Hg Hv. simpl. run_step.
  now rewrite Hs, Hp, Hn, Hr, Hg, Hv.
Qed.

(** One matching anchor that leads to the gated domain, on a page with a
    list of versions: the answer is that of the resolver on the list, with
    [urlMatcher]. *)
Lemma Part000_one_gated_hop (fuel : nat) (pageUrl : string)
      (matcher : scrape.Matcher) (root n versionLink : html.Ptr)
      (fileUrl versionUrl : string) (w : World) :
  fetched pageUrl root ->
  scrape.FindAll root matcher = [n] ->
  resolvesTo pageUrl n fileUrl ->
  strings.Contains fileUrl Part000.gate = true ->
  scrape.Find root Part000.allVersionsMatcher = Some versionLink ->
  resolvesTo pageUrl versionLink versionUrl ->
  Part000.getDownloadUrl (S fuel) pageUrl matcher w
  = Part000.getDownloadUrl fuel versionUrl Part000.urlMatcher
                           (emit (GET pageUrl) w).
Proof.
  intros (response & Hs & Hp) Hn Hr Hg Hv Hvr. simpl. run_step.
  now rewrite Hs, Hp, Hn, Hr, Hg, Hv, Hvr.
Qed.

(** X1: the two hops of the gated domain.  The page has one matching anchor,
    which resolves to a URL containing "www.ieee-security.org", and an anchor
    "All <N> versions"; the page that anchor leads to has one anchor for
    [urlMatcher], and what it resolves to does not contain the gated domain:
    [getDownloadUrl] returns that URL and no error, after the two GETs. *)
Lemma Part000_two_hops (fuel : nat) (pageUrl : string)
      (matcher : scrape.Matcher) (root n versionLink : html.Ptr)
      (fileUrl versionUrl : string) (root2 n2 : html.Ptr) (pdfUrl : string)
      (w : World) :
  fetched pageUrl root ->
  scrape.FindAll root matcher = [n] ->
  resolvesTo pageUrl n fileUrl ->
  strings.Contains fileUrl Part000.gate = true ->
  scrape.Find root Part000.allVersionsMatcher = Some versionLink ->
  resolvesTo pageUrl versionLink versionUrl ->
  fetched versionUrl root2 ->
  scrape.FindAll root2 Part000.urlMatcher = [n2] ->
  resolvesTo versionUrl n2 pdfUrl ->
  strings.Contains pdfUrl Part000.gate = false ->
  Part000.getDownloadUrl (S (S fuel)) pageUrl matcher w
  = Returned (pdfUrl, None) (emit (GET versionUrl) (emit (GET pageUrl) w)).
Proof.
  intros Hf Hn Hr Hg Hv Hvr Hf2 Hn2 Hr2 Hg2.
  rewrite (Part000_one_gated_hop _ _ _ _ _ _ _ _ _ Hf Hn Hr Hg Hv Hvr).
  now apply (Part000_one_open _ _ _ root2 n2).
Qed.

(** What [urlMatcher] accepts has an [href] without the gated domain. *)
Lemma urlMatcher_href (n : html.Ptr) :
  Part000.urlMatcher n = true ->
  strings.Contains (scrape.Attr n "href") Part000.gate = false.
Proof.
  unfold Part000.urlMatcher.
  destruct (hasAtom n atom.A); [|discriminate].
  destruct (html.Parent n); [|discriminate].
  intros [_ Hg]%andb_true_iff. now apply negb_true_iff in Hg.
Qed.

(** When the [href] it accepts is a full URL, so is what it resolves to. *)
Lemma urlMatcher_absolute (pageUrl : string) (n : html.Ptr) (link : url.URL)
      (fileUrl : string) :
  Part000.urlMatcher n = true ->
  url.Parse (scrape.Attr n "href") = Ok link ->
  url.Scheme link <> EmptyString ->
  url.Host link <> EmptyString ->
  resolvesTo pageUrl n fileUrl ->
  strings.Contains fileUrl Part000.gate = false.
Proof.
  intros Hm Hp Hs Hh Hr. unfold resolvesTo in Hr.
  rewrite (getFullUrl_keeps _ _ _ Hp Hs Hh) in Hr.
  injection Hr as <-. now apply urlMatcher_href.
Qed.

(** The call of [getDownloadUrl] on the list of versions, with [urlMatcher],
    does not call itself again when the first anchor it accepts there
    resolves to a URL without the gated domain: one level of the recursion
    budget is as good as any, and the run ends. *)
Lemma versions_call_open (fuel : nat) (versionUrl : string) (w : World) :
  (forall root2 n2 others fileUrl,
      fetched versionUrl root2 ->
      scrape.FindAll root2 Part000.urlMatcher = n2 :: others ->
      resolvesTo versionUrl n2 fileUrl ->
      strings.Contains fileUrl Part000.gate = false) ->
  Part000.getDownloadUrl (S fuel) versionUrl Part000.urlMatcher w
  = Part000.getDownloadUrl 1 versionUrl Part000.urlMatcher w
  /\ finished (Part000.getDownloadUrl 1 versionUrl Part000.urlMatcher w).
Proof.
  intros Hopen. simpl. run_step.
  destruct (http.serve versionUrl) as [response|e] eqn:Hs; [|easy].
  destruct (html.Parse (http.Body response)) as [root2|e] eqn:Hp; [|easy].
  destruct (scrape.FindAll root2 Part000.urlMatcher) as [|n2 others] eqn:Hn;
    [easy|].
  destruct (getFullUrl versionUrl (scrape.Attr n2 "href"))
    as [fileUrl [e|]] eqn:Hr; [easy|].
  destruct others as [|n3 others]; [|easy].
  rewrite (Hopen root2 n2 [] fileUrl); [easy| |exact Hn|exact Hr].
  now exists response.
Qed.

End Resolver.

(** X5: the call of [getDownloadUrl] on the list of versions, with
    [urlMatcher], returns without calling itself again when the first anchor
    it accepts there has a full URL as its [href] (one that parses with a
    scheme and a host): the matcher has checked that very text for the gated
    domain, and [getFullUrl] returns it unchanged.  One level of the recursion
    budget is then as good as any. *)
Theorem versions_call_returns `{Platform}
        (fuel : nat) (versionUrl : string) (w : World) :
  (forall root2 n2 others,
      fetched versionUrl root2 ->
      scrape.FindAll root2 Part000.urlMatcher = n2 :: others ->
      exists link,
        url.Parse (scrape.Attr n2 "href") = Ok link
        /\ url.Scheme link <> EmptyString
        /\ url.Host link <> EmptyString) ->
  Part000.getDownloadUrl (S fuel) versionUrl Part000.urlMatcher w
  = Part000.getDownloadUrl 1 versionUrl Part000.urlMatcher w
  /\ finished (Part000.getDownloadUrl 1 versionUrl Part000.urlMatcher w).
Proof.
  intros Hfull. apply versions_call_open.
  intros root2 n2 others fileUrl Hf Hn Hr.
  destruct (Hfull root2 n2 others Hf Hn) as (link & Hp & Hs & Hh).
  apply (urlMatcher_absolute versionUrl n2 link fileUrl); auto.
  pose proof (FindAll_matches root2 Part000.urlMatcher) as Hall.
  rewrite Hn in Hall. now apply Forall_cons in Hall as [Hm _].
Qed.

(** C1, as amended: on a page that is served and parsed, all three revisions
    of [getDownloadUrl] return the missing-link error when no anchor matches,
    and the first match's resolved URL with the too-many-links error when
    several match.  With exactly one match, the first two revisions return
    its resolved URL and no error; the revision with the gated domain does so
    when that URL does not contain "www.ieee-security.org". *)
Theorem getDownloadUrl_cardinality `{Platform}
        (pageUrl : string) (matcher : scrape.Matcher) (root : html.Ptr)
        (w : World) :
  fetched pageUrl root ->
  (Part001.getDownloadUrl pageUrl
   = Main.getDownloadUrl pageUrl matchers.usenixFile)
  /\ (scrape.FindAll root matcher = [] ->
      Main.getDownloadUrl pageUrl matcher w
      = Returned (EmptyString, Some MissingDownloadLinkErr)
                 (emit (GET pageUrl) w)
      /\ forall fuel,
          Part000.getDownloadUrl (S fuel) pageUrl matcher w
          = Returned (EmptyString, Some MissingDownloadLinkErr)
                     (emit (GET pageUrl) w))
  /\ (forall n fileUrl,
         scrape.FindAll root matcher = [n] ->
         resolvesTo pageUrl n fileUrl ->
         Main.getDownloadUrl pageUrl matcher w
         = Returned (fileUrl, None) (emit (GET pageUrl) w)
         /\ (strings.Contains fileUrl Part000.gate = false ->
             forall fuel,
               Part000.getDownloadUrl (S fuel) pageUrl matcher w
               = Returned (fileUrl, None) (emit (GET pageUrl) w)))
  /\ (forall n n' others fileUrl,
         scrape.FindAll root matcher = n :: n' :: others ->
         resolvesTo pageUrl n fileUrl ->
         Main.getDownloadUrl pageUrl matcher w
         = Returned (fileUrl, Some TooManyDownloadLinksErr)
                    (emit (GET pageUrl) w)
         /\ forall fuel,
             Part000.getDownloadUrl (S fuel) pageUrl matcher w
             = Returned (fileUrl, Some TooManyDownloadLinksErr)
                        (emit (GET pageUrl) w)).
Proof.
  intros Hf. split; [reflexivity|]. split; [|split].
  - intros Hn. split; [now apply (Main_none _ _ root)|].
    intros fuel. now apply (Part000_none _ _ _ root).
  - intros n fileUrl Hn Hr. split; [now apply (Main_one _ _ root n)|].
    intros Hg fuel. now apply (Part000_one_open _ _ _ root n).
  - intros n n' others fileUrl Hn Hr.
    split; [now apply (Main_many _ _ root n n' others)|].
    intros fuel. now apply (Part000_many _ _ _ root n n' others).
Qed.

Lemma getDownloadUrl_cardinality_witness :
  @Main.getDownloadUrl demo.platform "http://example/paper1"
                       matchers.usenixFile demo.start
  = Returned ("http://example/files/p1.pdf", None)
             (emit (GET "http://example/paper1") demo.start).
Proof.
  destruct (@getDownloadUrl_cardinality demo.platform
              "http://example/paper1" matchers.usenixFile
              (demo.root "http://example/paper1") demo.start)
    as (_ & _ & Hone & _).
  { eexists. split; reflexivity. }
  exact (proj1 (Hone _ _ eq_refl eq_refl)).
Defined.

(** C1 as stated fails on the revision with the gated domain: the search
    page has exactly one matching anchor, which resolves to a PDF of the
    gated domain, and the resolver returns another URL, found on the list of
    versions. *)
Lemma getDownloadUrl_cardinality_counterexample :
  (exists root n,
      @fetched demo.platform
               "https://scholar.google.com/scholar?q=A+Paper" root
      /\ scrape.FindAll root matchers.scholarPdf = [n]
      /\ @resolvesTo demo.platform
                     "https://scholar.google.com/scholar?q=A+Paper" n
                     "http://www.ieee-security.org/TC/SP2015/papers/a.pdf")
  /\ @Part000.getDownloadUrl demo.platform 2
       "https://scholar.google.com/scholar?q=A+Paper" matchers.scholarPdf
       demo.start
     = Returned ("http://mirror.example.org/a.pdf", None)
         {| fs := ∅;
            trace := [GET "https://scholar.google.com/scholar?q=A+Paper";
                      GET "https://scholar.google.com/scholar?cluster=7"] |}
  /\ "http://mirror.example.org/a.pdf"
     <> "http://www.ieee-security.org/TC/SP2015/papers/a.pdf".
Proof.
  split; [|split].
  - do 2 eexists. split; [|split].
    + eexists. split; reflexivity.
    + reflexivity.
    + reflexivity.
  - reflexivity.
  - discriminate.
Qed.

(** C8: in the revision with the gated domain, a page with several matching
    anchors, the first of which leads to the gated domain, gives that first
    URL with the too-many-links error after the one GET of the page: the list
    of versions is not looked for, and nothing else is fetched. *)
Theorem gated_cardinality_first `{Platform}
        (fuel : nat) (pageUrl : string) (matcher : scrape.Matcher)
        (root n n' : html.Ptr) (others : list html.Ptr) (fileUrl : string)
        (w : World) :
  fetched pageUrl root ->
  scrape.FindAll root matcher = n :: n' :: others ->
  resolvesTo pageUrl n fileUrl ->
  strings.Contains fileUrl Part000.gate = true ->
  Part000.getDownloadUrl (S fuel) pageUrl matcher w
  = Returned (fileUrl, Some TooManyDownloadLinksErr) (emit (GET pageUrl) w).
Proof.
  intros Hf Hn Hr _. now apply (Part000_many _ _ _ root n n' others).
Qed.

Lemma gated_cardinality_first_witness :
  @Part000.getDownloadUrl demo.platform 1
     "https://scholar.google.com/scholar?q=Two+Results" matchers.scholarPdf
     demo.start
  = Returned ("http://www.ieee-security.org/TC/SP2015/papers/a.pdf",
              Some TooManyDownloadLinksErr)
             (emit (GET "https://scholar.google.com/scholar?q=Two+Results")
                   demo.start).
Proof.
  eapply (@gated_cardinality_first demo.platform).
  - eexists. split; reflexivity.
  - reflexivity.
  - reflexivity.
  - reflexivity.
Defined.


(** C6, the code at a failing input: a page of the gated domain whose PDF
    link is relative and whose "All 1 versions" anchor leads back to the page
    itself.  [urlMatcher] accepts the link, since its [href] does not contain
    the gated domain; the resolved URL does, so the resolver calls itself on
    the same page again, with the same matcher: no bound on the nested calls
    is enough. *)
Theorem gated_recursion_unbounded :
  (exists root n versionLink,
      @fetched demo.platform
               "http://www.ieee-security.org/TC/SP2015/index.html" root
      /\ scrape.FindAll root Part000.urlMatcher = [n]
      /\ scrape.Attr n "href" = "papers/a.pdf"
      /\ strings.Contains (scrape.Attr n "href") Part000.gate = false
      /\ @resolvesTo demo.platform
                     "http://www.ieee-security.org/TC/SP2015/index.html" n
                     "http://www.ieee-security.org/TC/SP2015/papers/a.pdf"
      /\ scrape.Find root (@Part000.allVersionsMatcher) = Some versionLink
      /\ @resolvesTo demo.platform
                     "http://www.ieee-security.org/TC/SP2015/index.html"
                     versionLink
                     "http://www.ieee-security.org/TC/SP2015/index.html")
  /\ forall (fuel : nat) (w : World),
      @Part000.getDownloadUrl demo.platform fuel
         "http://www.ieee-security.org/TC/SP2015/index.html"
         Part000.urlMatcher w
      = OutOfFuel
      /\ @Part000.getDownloadUrl demo.platform fuel
           "http://www.ieee-security.org/TC/SP2015/index.html"
           matchers.scholarPdf w
         = OutOfFuel.
Proof.
  split.
  { exists (demo.root "http://www.ieee-security.org/TC/SP2015/index.html").
    do 2 eexists.
    repeat match goal with
           | |- _ /\ _ => split
           | |- fetched _ _ => eexists; split; reflexivity
           | |- _ => reflexivity
           end. }
  assert (forall fuel w,
             @Part000.getDownloadUrl demo.platform fuel
               "http://www.ieee-security.org/TC/SP2015/index.html"
               Part000.urlMatcher w = OutOfFuel) as Hloop.
  { induction fuel as [|fuel IH]; intros w; [reflexivity|].
    erewrite (@Part000_one_gated_hop demo.platform);
      [ apply IH | eexists; split; reflexivity | reflexivity.. ]. }
  intros fuel w. split; [apply Hloop|].
  destruct fuel as [|fuel]; [reflexivity|].
  erewrite (@Part000_one_gated_hop demo.platform);
    [ apply Hloop | eexists; split; reflexivity | reflexivity.. ].
Qed.

(** ** The file system *)

Section FileSystem.

Implicit Types (fs : gmap string fsys.Entry) (k d : string) (ds : list string).

Lemma entry_insert_ne fs k k' (e : fsys.Entry) :
  k <> k' -> fsys.entry (<[k := e]> fs) k' = fsys.entry fs k'.
Proof.
  intros Hne. unfold fsys.entry.
  destruct (String.eqb k' "/" || String.eqb k' path.dot); [reflexivity|].
  now rewrite lookup_insert_ne.
Qed.

Lemma entry_insert_eq fs k (e : fsys.Entry) :
  is_Some (fsys.entry (<[k := e]> fs) k).
Proof.
  unfold fsys.entry.
  destruct (String.eqb k "/" || String.eqb k path.dot); [eauto|].
  rewrite lookup_insert_eq. eauto.
Qed.

(** A walk that succeeds went through searchable directories only. *)
Lemma walk_ok_dirs fs ds d :
  fsys.walk fs ds = None -> In d ds ->
  fsys.entry fs d = Some (fsys.Directory true).
Proof.
  induction ds as [|d' ds IH]; simpl; [tauto|].
  destruct (fsys.entry fs d') as [[c|[|]]|] eqn:E; try discriminate.
  intros Hw [<- | Hin]; auto.
Qed.

(** Writing a path that is not one of the directories walked leaves the walk
    as it was. *)
Lemma walk_insert fs ds k (e : fsys.Entry) :
  ~ In k ds -> fsys.walk (<[k := e]> fs) ds = fsys.walk fs ds.
Proof.
  induction ds as [|d ds IH]; simpl; [reflexivity|].
  intros Hn. rewrite entry_insert_ne by (intros ->; apply Hn; now left).
  rewrite IH by (intros Hin; apply Hn; now right). reflexivity.
Qed.

(** What a successful [create] did. *)
Lemma create_ok fs name fs1 out :
  fsys.create fs name = (fs1, inl out) ->
  out = path.Clean name
  /\ fs1 = <[out := fsys.RegularFile EmptyString]> fs
  /\ name <> EmptyString
  /\ fsys.walk fs (fsys.dirs name) = None
  /\ ~ In out (fsys.dirs name).
Proof.
  unfold fsys.create.
  destruct (String.eqb name EmptyString) eqn:En; [discriminate|].
  apply String.eqb_neq in En.
  destruct (fsys.walk fs (fsys.dirs name)) eqn:Ew; [discriminate|].
  destruct (fsys.entry fs (path.Clean name)) as [[c|b]|] eqn:Ee;
    intros [= <- <-] || discriminate; repeat split; auto;
    intros Hin; rewrite (walk_ok_dirs _ _ _ Ew Hin) in Ee; discriminate.
Qed.

(** Once [create] has succeeded, [stat] finds the file, whatever is written
    to it. *)
Lemma stat_created fs name fs1 out (c : string) :
  fsys.create fs name = (fs1, inl out) ->
  fsys.stat (<[out := fsys.RegularFile c]> fs) name = None.
Proof.
  intros Hc. destruct (create_ok _ _ _ _ Hc) as (-> & _ & Hne & Hw & Hn).
  unfold fsys.stat. apply String.eqb_neq in Hne. rewrite Hne.
  rewrite walk_insert, Hw by assumption.
  destruct (entry_insert_eq fs (path.Clean name) (fsys.RegularFile c)) as [e ->].
  reflexivity.
Qed.

End FileSystem.

(** ** The file downloader *)

Section Downloader.

Context `{Platform}.

(** The skip branch: any outcome of [os.Stat] but "does not exist". *)
Lemma downloadFile_skip (url filepath : string) (w : World) :
  fsys.stat (fs w) filepath <> Some ENOENT ->
  downloadFile url filepath w = Returned None (emit (LOG (skipLine filepath)) w).
Proof.
  intros Hs. unfold downloadFile. run_step.
  destruct (fsys.stat (fs w) filepath) as [[]|]; try reflexivity.
  now elim Hs.
Qed.

(** The other branch, up to the answer of the web. *)
Lemma downloadFile_fetch (url filepath : string) (w : World)
      (fs1 : gmap string fsys.Entry) (out : string) :
  fsys.stat (fs w) filepath = Some ENOENT ->
  fsys.create (fs w) filepath = (fs1, inl out) ->
  downloadFile url filepath w =
  match http.serve url with
  | Err e =>
    Returned (Some e)
             {| fs := <[path.Clean filepath := fsys.RegularFile EmptyString]> (fs w);
                trace := trace w ++ [GET url] |}
  | Ok response =>
    Returned (failure (http.Body response))
             {| fs := <[path.Clean filepath :=
                          fsys.RegularFile (data (http.Body response))]> (fs w);
                trace := trace w ++ [GET url] |}
  end.
Proof.
  intros Hs Hc. destruct (create_ok _ _ _ _ Hc) as (-> & -> & _).
  unfold downloadFile. run_step. rewrite Hs. simpl. rewrite Hc. simpl.
  destruct (http.serve url) as [response|e]; [|reflexivity].
  unfold setFs, emit. simpl. rewrite insert_insert_eq.
  destruct (failure (http.Body response)); reflexivity.
Qed.

End Downloader.

(** C5: when [os.Stat] finds the destination, [downloadFile] returns nil
    after logging a line, without a GET and without touching the file system;
    when [os.Stat] reports that it does not exist, the file can be created
    and the GET is answered with a body that is read to its end, the run
    returns nil, has made that one GET, and the file at the destination holds
    exactly the bytes of the body. *)
Theorem downloadFile_skips_or_writes_body `{Platform}
        (url filepath : string) (w : World) :
  (fsys.stat (fs w) filepath = None ->
   downloadFile url filepath w
   = Returned None (emit (LOG (skipLine filepath)) w))
  /\ (forall fs1 out response,
         fsys.stat (fs w) filepath = Some ENOENT ->
         fsys.create (fs w) filepath = (fs1, inl out) ->
         http.serve url = Ok response ->
         failure (http.Body response) = None ->
         downloadFile url filepath w
         = Returned None
             {| fs := <[path.Clean filepath :=
                          fsys.RegularFile (data (http.Body response))]> (fs w);
                trace := trace w ++ [GET url] |}).
Proof.
  split.
  - intros Hs. apply downloadFile_skip. now rewrite Hs.
  - intros fs1 out response Hs Hc Hg Hb.
    rewrite (downloadFile_fetch _ _ _ _ _ Hs Hc), Hg, Hb. reflexivity.
Qed.

(** C9: whenever [os.Stat] on the destination yields anything but a
    does-not-exist error (no error, or an error of another kind), [downloadFile]
    returns nil, and the world after it differs from the one before by the
    logged line only: no file is created and no GET is made. *)
Theorem downloadFile_skips_unless_not_exist `{Platform}
        (url filepath : string) (w : World) :
  fsys.stat (fs w) filepath <> Some ENOENT ->
  downloadFile url filepath w
  = Returned None (emit (LOG (skipLine filepath)) w).
Proof. apply downloadFile_skip. Qed.

(** C10: when [os.Stat] reports that the destination does not exist and the
    file is created, a failing GET leaves the empty file behind and a failing
    read of the body leaves the bytes read so far; the error is returned, and
    a later call for the same destination, whatever its URL, skips: it
    returns nil without a GET. *)
Theorem downloadFile_failure_leaves_file `{Platform}
        (url filepath : string) (w : World)
        (fs1 : gmap string fsys.Entry) (out : string) :
  fsys.stat (fs w) filepath = Some ENOENT ->
  fsys.create (fs w) filepath = (fs1, inl out) ->
  (forall e,
      http.serve url = Err e ->
      let w1 :=
        {| fs := <[path.Clean filepath := fsys.RegularFile EmptyString]> (fs w);
           trace := trace w ++ [GET url] |} in
      downloadFile url filepath w = Returned (Some e) w1
      /\ forall url',
          downloadFile url' filepath w1
          = Returned None (emit (LOG (skipLine filepath)) w1))
  /\ (forall response e,
         http.serve url = Ok response ->
         failure (http.Body response) = Some e ->
         let w1 :=
           {| fs := <[path.Clean filepath :=
                        fsys.RegularFile (data (http.Body response))]> (fs w);
              trace := trace w ++ [GET url] |} in
         downloadFile url filepath w = Returned (Some e) w1
         /\ forall url',
             downloadFile url' filepath w1
             = Returned None (emit (LOG (skipLine filepath)) w1)).
Proof.
  intros Hs Hc.
  pose proof (create_ok _ _ _ _ Hc) as (Hout & _).
  split.
  - intros e Hg w1. split.
    + rewrite (downloadFile_fetch _ _ _ _ _ Hs Hc), Hg. reflexivity.
    + intros url'. apply downloadFile_skip. subst w1. simpl.
      rewrite <- Hout, (stat_created _ _ _ _ _ Hc). discriminate.
  - intros response e Hg Hb w1. split.
    + rewrite (downloadFile_fetch _ _ _ _ _ Hs Hc), Hg, Hb. reflexivity.
    + intros url'. apply downloadFile_skip. subst w1. simpl.
      rewrite <- Hout, (stat_created _ _ _ _ _ Hc). discriminate.
Qed.

Lemma downloadFile_skips_or_writes_body_witness :
  @downloadFile demo.platform "http://example/papers/a.pdf" "papers/a.pdf"
                demo.withPapers
  = Returned None
      {| fs := <["papers/a.pdf" := fsys.RegularFile "%PDF-1.4 paper a"]>
                 (fs demo.withPapers);
         trace := [GET "http://example/papers/a.pdf"] |}
  /\ @downloadFile demo.platform "http://example/papers/b.pdf" "papers"
                   demo.withPapers
     = Returned None (emit (LOG (skipLine "papers")) demo.withPapers).
Proof.
  split.
  - exact (proj2 (@downloadFile_skips_or_writes_body demo.platform
                    "http://example/papers/a.pdf" "papers/a.pdf"
                    demo.withPapers)
                 _ _ _ eq_refl eq_refl eq_refl eq_refl).
  - exact (proj1 (@downloadFile_skips_or_writes_body demo.platform
                    "http://example/papers/b.pdf" "papers" demo.withPapers)
                 eq_refl).
Defined.

(** The directory cannot be searched: [os.Stat] fails with "permission
    denied", and the download is skipped as if the file were there. *)
Lemma downloadFile_skips_unless_not_exist_witness :
  fsys.stat (fs demo.lockedPapers) "papers/a.pdf" = Some EACCES
  /\ @downloadFile demo.platform "http://example/papers/a.pdf" "papers/a.pdf"
                   demo.lockedPapers
     = Returned None (emit (LOG (skipLine "papers/a.pdf")) demo.lockedPapers).
Proof.
  split; [reflexivity|].
  apply (@downloadFile_skips_unless_not_exist demo.platform).
  discriminate.
Defined.

(** No connection: the empty file stays, and the next call skips.  A transfer
    that breaks off: the nine bytes read stay, and the next call skips. *)
Lemma downloadFile_failure_leaves_file_witness :
  (@downloadFile demo.platform "http://nowhere.example/a.pdf" "papers/a.pdf"
                 demo.withPapers
   = Returned (Some demo.refusedErr)
       {| fs := <["papers/a.pdf" := fsys.RegularFile ""]> (fs demo.withPapers);
          trace := [GET "http://nowhere.example/a.pdf"] |}
   /\ @downloadFile demo.platform "http://example/papers/a.pdf" "papers/a.pdf"
        {| fs := <["papers/a.pdf" := fsys.RegularFile ""]> (fs demo.withPapers);
           trace := [GET "http://nowhere.example/a.pdf"] |}
      = Returned None
          {| fs := <["papers/a.pdf" := fsys.RegularFile ""]> (fs demo.withPapers);
             trace := [GET "http://nowhere.example/a.pdf";
                       LOG (skipLine "papers/a.pdf")] |})
  /\ @downloadFile demo.platform "http://example/papers/broken.pdf"
                   "papers/broken.pdf" demo.withPapers
     = Returned (Some demo.resetErr)
         {| fs := <["papers/broken.pdf" := fsys.RegularFile "%PDF-1.4 "]>
                    (fs demo.withPapers);
            trace := [GET "http://example/papers/broken.pdf"] |}.
Proof.
  split; [split|].
  - exact (proj1 (proj1 (@downloadFile_failure_leaves_file demo.platform
                           "http://nowhere.example/a.pdf" "papers/a.pdf"
                           demo.withPapers _ _ eq_refl eq_refl)
                        _ eq_refl)).
  - exact (proj2 (proj1 (@downloadFile_failure_leaves_file demo.platform
                           "http://nowhere.example/a.pdf" "papers/a.pdf"
                           demo.withPapers _ _ eq_refl eq_refl)
                        _ eq_refl)
                 "http://example/papers/a.pdf").
  - exact (proj1 (proj2 (@downloadFile_failure_leaves_file demo.platform
                           "http://example/papers/broken.pdf"
                           "papers/broken.pdf" demo.withPapers _ _
                           eq_refl eq_refl)
                        _ _ eq_refl eq_refl)).
Defined.

(** ** Paths made of plain elements *)

Section Paths.

Implicit Types (s t e f : string) (segs : list string).

Lemma append_cons (c : ascii) s t : String c s +:+ t = String c (s +:+ t).
Proof. reflexivity. Qed.

Lemma append_assoc s t u : (s +:+ t) +:+ u = s +:+ t +:+ u.
Proof.
  induction s as [|c s IH]; [reflexivity|].
  rewrite !append_cons. now f_equal.
Qed.

Lemma plain_spec e :
  plain e = true ->
  e <> EmptyString /\ String.eqb e path.dot = false
  /\ String.eqb e path.dotdot = false /\ strings.hasByte e "/" = false.
Proof.
  unfold plain. rewrite !andb_true_iff, !negb_true_iff.
  intros [[[H1 H2] H3] H4]. apply String.eqb_neq in H1. auto.
Qed.

(** A plain element starts with a byte that is not a slash. *)
Lemma plain_head e :
  plain e = true ->
  exists c t, e = String c t /\ Ascii.eqb c "/" = false.
Proof.
  intros (Hne & _ & _ & Hs)%plain_spec. destruct e as [|c t]; [easy|].
  simpl in Hs. apply orb_false_iff in Hs as [Hc _]. eauto.
Qed.

Lemma Split_no_sep s :
  strings.hasByte s "/" = false -> strings.Split s "/" = [s].
Proof.
  induction s as [|c s IH]; simpl; [reflexivity|].
  intros [Hc Hs]%orb_false_iff. now rewrite Hc, (IH Hs).
Qed.

Lemma Split_app s t :
  strings.hasByte s "/" = false ->
  strings.Split (s +:+ String "/" t) "/" = s :: strings.Split t "/".
Proof.
  induction s as [|c s IH]; [reflexivity|].
  simpl. intros [Hc Hs]%orb_false_iff. now rewrite Hc, (IH Hs).
Qed.

Lemma Join_cons e e' (rest : list string) :
  strings.Join (e :: e' :: rest) "/"
  = e +:+ String "/" (strings.Join (e' :: rest) "/").
Proof. reflexivity. Qed.

(** Splitting undoes joining, for elements without a slash. *)
Lemma Split_Join segs :
  segs <> [] ->
  Forall (fun e => strings.hasByte e "/" = false) segs ->
  strings.Split (strings.Join segs "/") "/" = segs.
Proof.
  intros Hne Hall. induction Hall as [|e rest He Hall IH]; [easy|].
  destruct rest as [|e' rest].
  - now apply Split_no_sep.
  - rewrite Join_cons, (Split_app _ _ He). f_equal. now apply IH.
Qed.

Lemma Join_app (a b : list string) :
  a <> [] -> b <> [] ->
  strings.Join (a ++ b) "/"
  = strings.Join a "/" +:+ String "/" (strings.Join b "/").
Proof.
  intros Ha Hb. induction a as [|e a IH]; [easy|].
  destruct a as [|e' a].
  - destruct b; [easy|]. reflexivity.
  - change ((e :: e' :: a) ++ b) with (e :: (e' :: a) ++ b).
    change ((e' :: a) ++ b) with (e' :: a ++ b) at 1.
    rewrite Join_cons. change (e' :: a ++ b) with ((e' :: a) ++ b).
    rewrite IH by easy. rewrite Join_cons, append_assoc.
    now rewrite append_cons.
Qed.

Lemma plain_no_sep segs :
  Forall (fun e => plain e = true) segs ->
  Forall (fun e => strings.hasByte e "/" = false) segs.
Proof.
  induction 1 as [|e rest He Hall IH]; constructor; [|exact IH].
  now apply plain_spec in He.
Qed.

(** A join of plain elements starts with a byte that is not a slash. *)
Lemma Join_head segs :
  segs <> [] -> Forall (fun e => plain e = true) segs ->
  exists c t, strings.Join segs "/" = String c t /\ Ascii.eqb c "/" = false.
Proof.
  intros Hne Hall. destruct Hall as [|e rest He Hall]; [easy|].
  destruct (plain_head _ He) as (c & t & -> & Hc).
  destruct rest; [eauto|]. rewrite Join_cons, append_cons. eauto.
Qed.

Lemma cleanElems_plain (rooted : bool) (out : list string) segs :
  Forall (fun e => plain e = true) segs ->
  path.cleanElems rooted out segs = rev out ++ segs.
Proof.
  intros Hall. revert out.
  induction Hall as [|e rest He Hall IH]; intros out; simpl.
  - now rewrite app_nil_r.
  - destruct (plain_spec _ He) as (H1 & H2 & H3 & _).
    apply String.eqb_neq in H1. rewrite H1, H2, H3. simpl.
    rewrite IH. simpl. now rewrite <- app_assoc.
Qed.

(** [path.Clean] leaves a relative path of plain elements as it is. *)
Lemma Clean_Join segs :
  segs <> [] -> Forall (fun e => plain e = true) segs ->
  path.Clean (strings.Join segs "/") = strings.Join segs "/".
Proof.
  intros Hne Hall.
  destruct (Join_head _ Hne Hall) as (c & t & E & Hc).
  unfold path.Clean. rewrite E, Hc, <- E.
  rewrite (Split_Join _ Hne (plain_no_sep _ Hall)), cleanElems_plain by easy.
  simpl. destruct segs; easy.
Qed.

(** [path.Join] of a relative path of plain elements and more plain
    elements is the text with slashes between them. *)
Lemma path_Join_plain segs (more : list string) :
  segs <> [] -> Forall (fun e => plain e = true) segs ->
  more <> [] -> Forall (fun e => plain e = true) more ->
  path.Join (strings.Join segs "/" :: more)
  = strings.Join (segs ++ more) "/".
Proof.
  intros Hne Hall Hm Hmall.
  destruct (Join_head _ Hne Hall) as (c & t & E & _).
  unfold path.Join. rewrite E. simpl String.eqb. cbv iota. rewrite <- E.
  assert (strings.Join (strings.Join segs "/" :: more) "/"
          = strings.Join (segs ++ more) "/") as ->.
  { rewrite (Join_app segs more) by easy. destruct more; [easy|].
    reflexivity. }
  apply Clean_Join; [now destruct segs|]. now apply Forall_app.
Qed.

End Paths.

(** ** The decimal form of a year is a plain element *)

Section Decimal.

Lemma digit_or_minus (c : ascii) :
  regexp.isDigit c || Ascii.eqb c "-" = true ->
  Ascii.eqb c "/" = false /\ Ascii.eqb c "." = false.
Proof.
  intros Hc. split.
  - destruct (Ascii.eqb_spec c "/") as [->|]; [discriminate Hc|reflexivity].
  - destruct (Ascii.eqb_spec c ".") as [->|]; [discriminate Hc|reflexivity].
Qed.

Lemma allDigits_no_sep (s : string) :
  neturl.allDigits s = true -> strings.hasByte s "/" = false.
Proof.
  induction s as [|c s IH]; simpl; [reflexivity|].
  intros [Hc Hs]%andb_true_iff. rewrite (IH Hs), orb_false_r.
  apply digit_or_minus. now rewrite Hc.
Qed.

Lemma uint_digits (d : Decimal.uint) :
  neturl.allDigits (NilEmpty.string_of_uint d) = true.
Proof. induction d; simpl; auto. Qed.

Lemma uint_digits_zero (d : Decimal.uint) :
  exists c t, NilZero.string_of_uint d = String c t
              /\ regexp.isDigit c = true /\ neturl.allDigits t = true.
Proof.
  destruct d; simpl;
    (eexists _, _; split; [reflexivity|split; [reflexivity|]]);
    first [reflexivity | apply uint_digits].
Qed.

(** [strconv.Itoa] writes a digit or a minus sign, then digits. *)
Lemma Itoa_shape (i : Z) :
  exists c t, strconv.Itoa i = String c t
              /\ regexp.isDigit c || Ascii.eqb c "-" = true
              /\ neturl.allDigits t = true.
Proof.
  unfold strconv.Itoa, NilZero.string_of_int.
  destruct (Z.to_int i) as [d|d].
  - destruct (uint_digits_zero d) as (c & t & -> & Hc & Ht).
    exists c, t. rewrite Hc. auto.
  - destruct (uint_digits_zero d) as (c & t & -> & Hc & Ht).
    eexists _, _. split; [reflexivity|]. split; [reflexivity|].
    simpl. now rewrite Hc, Ht.
Qed.

Lemma plain_Itoa (i : Z) : plain (strconv.Itoa i) = true.
Proof.
  destruct (Itoa_shape i) as (c & t & -> & Hc & Ht).
  destruct (digit_or_minus c Hc) as [Hs Hd].
  unfold plain. simpl. rewrite Hs, Hd, (allDigits_no_sep t Ht). reflexivity.
Qed.

End Decimal.

(** ** Directories *)

Section Directories.

Implicit Types (fs : gmap string fsys.Entry) (k d : string) (ds : list string).

Lemma entry_insert_dir fs k :
  fsys.entry (<[k := fsys.Directory true]> fs) k = Some (fsys.Directory true).
Proof.
  unfold fsys.entry.
  destruct (String.eqb k "/" || String.eqb k path.dot); [reflexivity|].
  apply lookup_insert_eq.
Qed.

(** [mkdirs] keeps what is there. *)
Lemma mkdirs_keeps fs ds fs' (r : option Errno) k (e : fsys.Entry) :
  fsys.mkdirs fs ds = (fs', r) ->
  fsys.entry fs k = Some e -> fsys.entry fs' k = Some e.
Proof.
  revert fs. induction ds as [|d ds IH]; simpl; intros fs Hm Hk.
  - now injection Hm as <- _.
  - destruct (fsys.entry fs d) as [[c|[|]]|] eqn:Ed.
    + now injection Hm as <- _.
    + eauto.
    + destruct ds; now injection Hm as <- _.
    + apply (IH _ Hm). rewrite entry_insert_ne; [exact Hk|].
      intros ->. congruence.
Qed.

(** [mkdirs] touches the listed directories only. *)
Lemma mkdirs_frame fs ds fs' (r : option Errno) k :
  fsys.mkdirs fs ds = (fs', r) ->
  ~ In k ds -> fsys.entry fs' k = fsys.entry fs k.
Proof.
  revert fs. induction ds as [|d ds IH]; simpl; intros fs Hm Hk.
  - now injection Hm as <- _.
  - destruct (fsys.entry fs d) as [[c|[|]]|] eqn:Ed.
    + now injection Hm as <- _.
    + apply (IH _ Hm). tauto.
    + destruct ds; now injection Hm as <- _.
    + rewrite (IH _ Hm) by tauto. apply entry_insert_ne. tauto.
Qed.

(** After a successful [mkdirs] of directories ending in [k], which was not
    an unsearchable directory, a walk through all of them succeeds. *)
Lemma mkdirs_walk fs ds k fs' :
  fsys.mkdirs fs (ds ++ [k]) = (fs', None) ->
  fsys.entry fs k <> Some (fsys.Directory false) ->
  fsys.walk fs' (ds ++ [k]) = None.
Proof.
  revert fs. induction ds as [|d ds IH]; simpl; intros fs Hm Hk.
  - destruct (fsys.entry fs k) as [[c|[|]]|] eqn:Ek; try easy.
    + injection Hm as <-. now rewrite Ek.
    + injection Hm as <-. now rewrite entry_insert_dir.
  - destruct (fsys.entry fs d) as [[c|[|]]|] eqn:Ed; try easy.
    + rewrite (mkdirs_keeps _ _ _ _ _ _ Hm Ed). eauto.
    + destruct ds; discriminate.
    + rewrite (mkdirs_keeps _ _ _ _ _ _ Hm (entry_insert_dir fs d)).
      apply (IH _ Hm). destruct (decide (d = k)) as [->|Hne].
      * now rewrite entry_insert_dir.
      * now rewrite entry_insert_ne.
Qed.

(** When [mkdirs] succeeds, a walk before it could only fail on a missing
    directory. *)
Lemma mkdirs_walk_before fs ds k fs' :
  fsys.mkdirs fs (ds ++ [k]) = (fs', None) ->
  fsys.walk fs ds = None \/ fsys.walk fs ds = Some ENOENT.
Proof.
  revert fs. induction ds as [|d ds IH]; simpl; intros fs Hm; [auto|].
  destruct (fsys.entry fs d) as [[c|[|]]|] eqn:Ed; try easy; eauto.
  destruct ds; discriminate.
Qed.

Lemma dirsFrom_snoc (pre xs : list string) (y : string) :
  xs <> [] ->
  fsys.dirsFrom pre (xs ++ [y]) = fsys.dirsFrom pre xs ++ [fsys.keyOf (pre ++ xs)].
Proof.
  revert pre. induction xs as [|e xs IH]; intros pre Hne; [easy|].
  destruct xs as [|e' xs]; [reflexivity|].
  specialize (IH (pre ++ [e]) ltac:(easy)).
  change (fsys.dirsFrom pre ((e :: e' :: xs) ++ [y]))
    with (fsys.keyOf (pre ++ [e])
            :: fsys.dirsFrom (pre ++ [e]) ((e' :: xs) ++ [y])).
  rewrite IH.
  change (fsys.dirsFrom pre (e :: e' :: xs))
    with (fsys.keyOf (pre ++ [e]) :: fsys.dirsFrom (pre ++ [e]) (e' :: xs)).
  rewrite <- (app_assoc pre [e] (e' :: xs)). reflexivity.
Qed.

(** Each directory walked is the join of a proper, non-empty prefix. *)
Lemma dirsFrom_In (pre xs : list string) k :
  In k (fsys.dirsFrom pre xs) ->
  exists ys zs, xs = ys ++ zs /\ ys <> [] /\ zs <> []
                /\ k = fsys.keyOf (pre ++ ys).
Proof.
  revert pre. induction xs as [|e xs IH]; intros pre; simpl; [easy|].
  destruct xs as [|e' xs]; [easy|]. intros [<- | Hin].
  - exists [e], (e' :: xs). easy.
  - destruct (IH _ Hin) as (ys & zs & E & Hy & Hz & ->).
    exists (e :: ys), zs. rewrite E, <- app_assoc. easy.
Qed.

Lemma keyOf_Join (segs : list string) :
  segs <> [] -> Forall (fun e => plain e = true) segs ->
  fsys.keyOf segs = strings.Join segs "/".
Proof.
  intros Hne Hall. destruct (Join_head _ Hne Hall) as (c & t & E & _).
  unfold fsys.keyOf. now rewrite E.
Qed.

Lemma dirs_Join (segs : list string) :
  segs <> [] -> Forall (fun e => plain e = true) segs ->
  fsys.dirs (strings.Join segs "/") = fsys.dirsFrom [] segs.
Proof.
  intros Hne Hall. unfold fsys.dirs.
  now rewrite Clean_Join, (Split_Join _ Hne (plain_no_sep _ Hall)).
Qed.

(** The directories walked to a file are those walked to its directory, and
    that directory. *)
Lemma dirs_snoc (segs : list string) (f : string) :
  segs <> [] -> Forall (fun e => plain e = true) segs -> plain f = true ->
  fsys.dirs (strings.Join (segs ++ [f]) "/")
  = fsys.dirs (strings.Join segs "/") ++ [strings.Join segs "/"].
Proof.
  intros Hne Hall Hf.
  assert (Forall (fun e => plain e = true) (segs ++ [f])) as Hall'
      by (apply Forall_app; auto).
  assert (segs ++ [f] <> []) as Hne' by now destruct segs.
  rewrite (dirs_Join _ Hne Hall), (dirs_Join _ Hne' Hall').
  rewrite dirsFrom_snoc by easy. simpl. now rewrite keyOf_Join.
Qed.

(** Joining is injective on plain elements, so a path is none of the
    directories walked to it. *)
Lemma Join_not_in_dirs (segs : list string) (f : string) :
  segs <> [] -> Forall (fun e => plain e = true) segs -> plain f = true ->
  ~ In (strings.Join (segs ++ [f]) "/")
       (fsys.dirs (strings.Join segs "/") ++ [strings.Join segs "/"]).
Proof.
  intros Hne Hall Hf Hin.
  assert (Forall (fun e => plain e = true) (segs ++ [f])) as Hall'
      by (apply Forall_app; auto).
  assert (segs ++ [f] <> []) as Hne' by now destruct segs.
  assert (exists ys, ys <> [] /\ length ys <= length segs
                     /\ Forall (fun e => plain e = true) ys
                     /\ strings.Join (segs ++ [f]) "/" = strings.Join ys "/")
    as (ys & Hy & Hlen & Hyall & E).
  { apply in_app_or in Hin as [Hin | [<- | []]].
    - rewrite dirs_Join in Hin by auto.
      destruct (dirsFrom_In _ _ _ Hin) as (ys & zs & -> & Hy & _ & E).
      apply Forall_app in Hall as [Hyall _].
      exists ys. rewrite E. simpl. rewrite keyOf_Join by auto.
      rewrite length_app. repeat split; auto. lia.
    - exists segs. auto. }
  apply (f_equal (fun s => strings.Split s "/")) in E.
  rewrite !Split_Join in E by auto using plain_no_sep.
  apply (f_equal (@length string)) in E. rewrite length_app in E.
  simpl in E. lia.
Qed.

End Directories.

(** ** Where the driver puts a file *)

Section Layout.

Context `{Platform}.

Variable segs : list string.
Variable conf : Conference.
Variable downloadUrl : string.

Hypothesis segs_nonempty : segs <> [].
Hypothesis segs_plain : Forall (fun e => plain e = true) segs.
Hypothesis name_plain : plain (Name conf) = true.
Hypothesis file_plain : plain (fileName downloadUrl) = true.

Local Abbreviation elems := (segs ++ [Name conf; strconv.Itoa (Year conf)]).
Local Abbreviation out := (strings.Join segs "/").
Local Abbreviation dir := (layoutDir out conf).
Local Abbreviation dest := (layoutFile dir downloadUrl).

Local Lemma elems_plain : Forall (fun e => plain e = true) elems.
Proof.
  apply Forall_app. split; [exact segs_plain|].
  repeat constructor; [exact name_plain | apply plain_Itoa].
Qed.

Local Lemma elems_nonempty : elems <> [].
Proof. now destruct segs. Qed.

Local Lemma dir_Join : dir = strings.Join elems "/".
Proof. unfold layoutDir. now rewrite Join_app. Qed.

Local Lemma dest_Join : dest = strings.Join (elems ++ [fileName downloadUrl]) "/".
Proof.
  unfold layoutFile.
  rewrite dir_Join, (Join_app elems [fileName downloadUrl]);
    [reflexivity| |easy].
  apply elems_nonempty.
Qed.

Local Lemma confDirectory_dir :
  path.Join [out; Name conf; strconv.Itoa (Year conf)] = dir.
Proof.
  rewrite dir_Join.
  apply path_Join_plain;
    [ exact segs_nonempty | exact segs_plain | easy | ].
  repeat constructor; [exact name_plain | apply plain_Itoa].
Qed.

Local Lemma filepath_dest : path.Join [dir; fileName downloadUrl] = dest.
Proof.
  rewrite dest_Join, dir_Join.
  apply path_Join_plain;
    [ exact elems_nonempty | exact elems_plain | easy | ].
  now repeat constructor.
Qed.

Local Lemma Clean_dir : path.Clean dir = dir.
Proof.
  rewrite dir_Join. apply Clean_Join; auto using elems_nonempty, elems_plain.
Qed.

Local Lemma Clean_dest : path.Clean dest = dest.
Proof.
  rewrite dest_Join. apply Clean_Join.
  - now destruct segs.
  - apply Forall_app. split; [apply elems_plain|]. now repeat constructor.
Qed.

Local Lemma dirs_dest : fsys.dirs dest = fsys.dirs dir ++ [dir].
Proof.
  rewrite dest_Join, dir_Join.
  apply dirs_snoc; auto using elems_nonempty, elems_plain.
Qed.

Local Lemma dest_not_dir : ~ In dest (fsys.dirs dir ++ [dir]).
Proof.
  rewrite dest_Join, dir_Join.
  apply Join_not_in_dirs; auto using elems_nonempty, elems_plain.
Qed.

Local Lemma nonempty_Join (l : list string) :
  l <> [] -> Forall (fun e => plain e = true) l ->
  String.eqb (strings.Join l "/") EmptyString = false.
Proof.
  intros Hne Hall. destruct (Join_head _ Hne Hall) as (c & t & -> & _).
  reflexivity.
Qed.

(** The directory is missing and can be made: it is made, with its parents,
    and nothing else changes. *)
Lemma createConfDirectory_makes (w : World) (fs1 : gmap string fsys.Entry) :
  fsys.entry (fs w) dir = None ->
  fsys.mkdirAll (fs w) dir = (fs1, None) ->
  createConfDirectory out conf w = Returned (dir, None) (setFs fs1 w)
  /\ fsys.walk fs1 (fsys.dirs dir ++ [dir]) = None
  /\ fsys.entry fs1 dest = fsys.entry (fs w) dest.
Proof.
  intros He Hm.
  assert (String.eqb dir EmptyString = false) as Hne.
  { rewrite dir_Join.
    apply nonempty_Join; auto using elems_nonempty, elems_plain. }
  pose proof Hm as Hm'. unfold fsys.mkdirAll in Hm'.
  rewrite Hne, Clean_dir in Hm'.
  assert (fsys.stat (fs w) dir = Some ENOENT) as Hs.
  { unfold fsys.stat. rewrite Hne, Clean_dir, He.
    destruct (mkdirs_walk_before _ _ _ _ Hm') as [-> | ->]; reflexivity. }
  repeat split.
  - unfold createConfDirectory. rewrite confDirectory_dir. run_step.
    rewrite Hs. simpl. now rewrite Hm.
  - apply (mkdirs_walk _ _ _ _ Hm'). now rewrite He.
  - apply (mkdirs_frame _ _ _ _ _ Hm'), dest_not_dir.
Qed.

(** [os.Stat] does not report the directory missing: nothing is made. *)
Lemma createConfDirectory_keeps (w : World) :
  fsys.stat (fs w) dir <> Some ENOENT ->
  createConfDirectory out conf w = Returned (dir, None) w.
Proof.
  intros Hs. unfold createConfDirectory. rewrite confDirectory_dir. run_step.
  destruct (fsys.stat (fs w) dir) as [[]|]; try reflexivity. now elim Hs.
Qed.

(** The directory is there, the file is not, and the web answers: the file
    holds the bytes the answer delivers (all of them, when reading the body
    does not fail). *)
Lemma saveTo_writes (d : Z) (w : World) (response : http.Response) :
  fsys.walk (fs w) (fsys.dirs dir ++ [dir]) = None ->
  fsys.entry (fs w) dest = None ->
  http.serve downloadUrl = Ok response ->
  saveTo d dir downloadUrl w
  = Returned tt
      {| fs := <[dest := fsys.RegularFile (data (http.Body response))]> (fs w);
         trace := trace w ++ [GET downloadUrl; SLEEP d] |}.
Proof.
  intros Hw He Hg.
  assert (String.eqb dest EmptyString = false) as Hne.
  { rewrite dest_Join. apply nonempty_Join.
    - now destruct segs.
    - apply Forall_app. split; [apply elems_plain|]. now repeat constructor. }
  assert (fsys.stat (fs w) dest = Some ENOENT) as Hs.
  { unfold fsys.stat. now rewrite Hne, dirs_dest, Hw, Clean_dest, He. }
  assert (fsys.create (fs w) dest
          = (<[dest := fsys.RegularFile EmptyString]> (fs w), inl dest)) as Hc.
  { unfold fsys.create. now rewrite Hne, dirs_dest, Hw, Clean_dest, He. }
  unfold saveTo. rewrite filepath_dest.
  unfold mbind, M_bind, bind.
  rewrite (downloadFile_fetch _ _ _ _ _ Hs Hc), Hg. cbv beta iota.
  rewrite Clean_dest.
  unfold time.Sleep, emit. simpl. now rewrite <- app_assoc.
Qed.

End Layout.




(** ** A whole download loop *)

Section Loop.

Context `{Platform}.

Variable config : Config.
Variable segs : list string.
Variable conf : Conference.

Hypothesis segs_nonempty : segs <> [].
Hypothesis segs_plain : Forall (fun e => plain e = true) segs.
Hypothesis name_plain : plain (Name conf) = true.

Local Abbreviation dir := (layoutDir (strings.Join segs "/") conf).

Lemma entry_insert_absent (f : gmap string fsys.Entry) (k : string)
      (e : fsys.Entry) :
  fsys.entry f k = None -> fsys.entry (<[k := e]> f) k = Some e.
Proof.
  unfold fsys.entry.
  destruct (String.eqb k "/" || String.eqb k path.dot); [discriminate|].
  intros _. apply lookup_insert_eq.
Qed.

Lemma layoutFile_inj (u v : string) :
  layoutFile dir u = layoutFile dir v -> fileName u = fileName v.
Proof.
  unfold layoutFile. intros E.
  apply (inj (String.app dir)) in E. now apply (inj (String.app "/")) in E.
Qed.

(** One round of [for _, link := range downloadLinks]. *)
Lemma saveLink_writes (link : string) (w : World) (response : http.Response) :
  plain (fileName link) = true ->
  fsys.walk (fs w) (fsys.dirs dir ++ [dir]) = None ->
  fsys.entry (fs w) (layoutFile dir link) = None ->
  http.serve link = Ok response ->
  saveLink config dir link w
  = Returned tt
      {| fs := <[layoutFile dir link :=
                   fsys.RegularFile (data (http.Body response))]> (fs w);
         trace := trace w ++ [LOG (link +:+ nl); GET link;
                              SLEEP (fetchTimeout config)] |}.
Proof.
  intros Hp Hw He Hg. unfold saveLink.
  unfold mbind, M_bind, bind, log.Println, log.Print.
  rewrite (saveTo_writes segs conf link segs_nonempty segs_plain name_plain
                         Hp _ (emit (LOG (link +:+ nl)) w) response Hw He Hg).
  unfold emit. simpl. now rewrite <- app_assoc.
Qed.


End Loop.

Lemma Part000_two_hops_witness :
  @Part000.getDownloadUrl demo.platform 2
     "https://scholar.google.com/scholar?q=A+Paper" matchers.scholarPdf
     demo.start
  = Returned ("http://mirror.example.org/a.pdf", None)
      (emit (GET "https://scholar.google.com/scholar?cluster=7")
            (emit (GET "https://scholar.google.com/scholar?q=A+Paper")
                  demo.start)).
Proof.
  eapply (@Part000_two_hops demo.platform 0
            "https://scholar.google.com/scholar?q=A+Paper" matchers.scholarPdf
            (demo.root "https://scholar.google.com/scholar?q=A+Paper") _ _ _ _
            (demo.root "https://scholar.google.com/scholar?cluster=7")).
  - eexists. split; reflexivity.
  - reflexivity.
  - reflexivity.
  - reflexivity.
  - reflexivity.
  - reflexivity.
  - eexists. split; reflexivity.
  - reflexivity.
  - reflexivity.
  - reflexivity.
Defined.


(** ** The driver *)

(** X3: a conference whose name no revision knows gives one log line and
    nothing else, in each revision. *)
Theorem unknown_conference_logs `{Platform}
        (fuel : nat) (config : Config) (conf : Conference) (w : World) :
  Name conf <> "USENIX" -> Name conf <> "NDSS" ->
  Name conf <> "Oakland" -> Name conf <> "CCS" ->
  let logged :=
    Returned tt
      (emit (LOG ("no parser found for " +:+ Conference_String conf)) w) in
  Main.conference config conf w = logged
  /\ Part000.conference fuel config conf w = logged
  /\ Part001.conference config conf w = logged.
Proof.
  intros H1%String.eqb_neq H2%String.eqb_neq H3%String.eqb_neq
         H4%String.eqb_neq.
  unfold Main.conference, Part000.conference, Part001.conference.
  rewrite H1, H2, H3, H4. repeat split.
Qed.

Lemma unknown_conference_logs_witness :
  @Main.conference demo.platform
     {| fetchTimeout := 500 * time.Millisecond;
        conferencesFile := "conferences.json";
        outputDirectory := "papers"; conferences := [] |}
     {| Name := "SOSP"; URL := "http://example/listing"; Year := 2017 |}
     demo.start
  = Returned tt (emit (LOG "no parser found for SOSP 2017") demo.start).
Proof.
  refine (proj1 (@unknown_conference_logs demo.platform 0 _ _ _ _ _ _ _));
    discriminate.
Defined.

(** X4: the end-to-end scenario of the specification.  The configuration
    holds CCS 2017 with a listing of two anchors "[PDF]" to /papers/a.pdf and
    /papers/b.pdf: from an empty disk, [main] creates papers/CCS/2017 with its
    parents and leaves the two files in it, after three GETs. *)
Example main_end_to_end :
  @Part000.main demo.platform 1
     {| fetchTimeout := 2 * time.Second;
        conferencesFile := "conferences.json";
        outputDirectory := "papers";
        conferences :=
          [{| Name := "CCS"; URL := "http://example/listing"; Year := 2017 |}]
     |}
     demo.start
  = Returned tt
      {| fs :=
           <["papers/CCS/2017/b.pdf" := fsys.RegularFile "%PDF-1.4 paper b"]>
           (<["papers/CCS/2017/a.pdf" := fsys.RegularFile "%PDF-1.4 paper a"]>
            (<["papers/CCS/2017" := fsys.Directory true]>
             (<["papers/CCS" := fsys.Directory true]>
              {["papers" := fsys.Directory true]})));
         trace :=
           [GET "http://example/listing";
            LOG ("http://example/papers/a.pdf" +:+ nl);
            GET "http://example/papers/a.pdf"; SLEEP (2 * time.Second);
            LOG ("http://example/papers/b.pdf" +:+ nl);
            GET "http://example/papers/b.pdf"; SLEEP (2 * time.Second)] |}.
Proof. reflexivity. Qed.

Lemma versions_call_returns_witness :
  @Part000.getDownloadUrl demo.platform 7
     "https://scholar.google.com/scholar?cluster=7" Part000.urlMatcher
     demo.start
  = Returned ("http://mirror.example.org/a.pdf", None)
             (emit (GET "https://scholar.google.com/scholar?cluster=7")
                   demo.start).
Proof.
  refine (eq_trans
            (proj1 (@versions_call_returns demo.platform 6
                      "https://scholar.google.com/scholar?cluster=7"
                      demo.start _))
            eq_refl).
  intros root2 n2 others (response & Hs & Hp) Hn.
  injection Hs as <-. injection Hp as <-. injection Hn as <- _.
  eexists. split; [reflexivity|]. split; discriminate.
Defined.

(** ** Link extraction *)

Section Links.

Context `{Platform}.

Lemma resolveAll_resolved (pageUrl : string) (pageNodes : list html.Ptr)
      (urls pages : list string) (w : World) :
  Forall2 (resolvesTo pageUrl) pageNodes urls ->
  resolveAll pageUrl pageNodes pages w = Returned (pages ++ urls) w.
Proof.
  intros Hall. revert pages.
  induction Hall as [|n u nodes urls Hn _ IH]; intros pages; simpl.
  - now rewrite app_nil_r.
  - unfold resolvesTo in Hn. rewrite Hn, IH, <- app_assoc. reflexivity.
Qed.

Lemma resolveAll_unresolved (pageUrl : string) (before after : list html.Ptr)
      (n : html.Ptr) (urls pages : list string) (junk : string) (e : error)
      (w : World) :
  Forall2 (resolvesTo pageUrl) before urls ->
  getFullUrl pageUrl (scrape.Attr n "href") = (junk, Some e) ->
  resolveAll pageUrl (before ++ n :: after) pages w
  = Exited (emit (LOG (Error e)) w).
Proof.
  intros Hall Hn. revert pages.
  induction Hall as [|n' u nodes urls Hn' _ IH]; intros pages; simpl.
  - now rewrite Hn.
  - unfold resolvesTo in Hn'. now rewrite Hn', IH.
Qed.

End Links.

(** X6: on a page that is served and parsed, [getLinks] returns the resolved
    URLs of the matched nodes in document order, without an error, after the
    one GET; when the link of a matched node does not resolve, the process
    exits at that node, having logged the error. *)
Theorem getLinks_document_order `{Platform}
        (pageUrl : string) (matcher : scrape.Matcher) (root : html.Ptr)
        (w : World) :
  fetched pageUrl root ->
  (forall urls,
      Forall2 (resolvesTo pageUrl) (scrape.FindAll root matcher) urls ->
      getLinks pageUrl matcher w = Returned (urls, None) (emit (GET pageUrl) w))
  /\ (forall before n after urls junk e,
         scrape.FindAll root matcher = before ++ n :: after ->
         Forall2 (resolvesTo pageUrl) before urls ->
         getFullUrl pageUrl (scrape.Attr n "href") = (junk, Some e) ->
         getLinks pageUrl matcher w
         = Exited (emit (LOG (Error e)) (emit (GET pageUrl) w))).
Proof.
  intros (response & Hs & Hp). split.
  - intros urls Hall. unfold getLinks. run_step. rewrite Hs, Hp.
    fold (@bind (list string) (list string * option error)).
    now rewrite (resolveAll_resolved _ _ _ _ _ Hall).
  - intros before n after urls junk e Hn Hall He.
    unfold getLinks. run_step. rewrite Hs, Hp, Hn.
    now rewrite (resolveAll_unresolved _ _ _ _ _ _ _ _ _ Hall He).
Qed.

Lemma getLinks_document_order_witness :
  @getLinks demo.platform "http://example/listing"
            (matchers.anchorText "[PDF]") demo.start
  = Returned (["http://example/papers/a.pdf"; "http://example/papers/b.pdf"],
              None)
             (emit (GET "http://example/listing") demo.start).
Proof.
  refine (proj1 (@getLinks_document_order demo.platform
                   "http://example/listing" (matchers.anchorText "[PDF]")
                   (demo.root "http://example/listing") demo.start _) _ _).
  - eexists. split; reflexivity.
  - repeat constructor.
Defined.
